(** * ignite_travel.sdk.client: a shallow embedding of DimsInventoryClient

    The client wraps four SOAP operations (room list, availability,
    inventory update, bookings).  Each operation validates its arguments,
    renders a request document, performs one HTTP call and walks the
    response tree.  The embedding keeps that shape:

    - Python values the code converts with [int(...)] are [pyval]s;
    - exceptions are an [exn] carried by [outcome];
    - the network and the clock are effects of a small state-and-error
      monad [M] whose state records every request sent and every reading of
      the clock;
    - a response body is the element tree [xml.etree.ElementTree] builds
      from it;
    - strings are sequences of ASCII characters. *)

From Stdlib Require Import ZArith List Ascii String Bool Lia Sorted Permutation.
From Stdlib Require Import DecimalString.
From stdpp Require Import base tactics option list gmap strings.

Local Open Scope string_scope.
Local Open Scope list_scope.
Local Open Scope Z_scope.

(** ** Exceptions and results *)

(** The exception classes the client code can meet.  [ValueError] carries its
    message; the messages of the ones raised inside the standard library are
    abbreviated (the client never inspects them). *)
Inductive exn : Type :=
  | ValueError (msg : string)
  | TypeError
  | AttributeError
  | HTTPError
  | ConnectionError
  | ParseError.

Inductive outcome (A : Type) : Type :=
  | Ret (a : A)
  | Raise (e : exn).
Arguments Ret {A} a.
Arguments Raise {A} e.

Definition obind {A B} (m : outcome A) (k : A -> outcome B) : outcome B :=
  match m with
  | Ret a => k a
  | Raise e => Raise e
  end.

(** [try: m except ValueError: raise ValueError(msg)].  Only a [ValueError] is
    caught; any other exception leaves the block as it is. *)
Definition except_ValueError {A} (m : outcome A) (msg : string) : outcome A :=
  match m with
  | Raise (ValueError _) => Raise (ValueError msg)
  | other => other
  end.

(** [for x in xs: ys.append(f(x))], stopping at the first exception. *)
Fixpoint traverse {A B} (f : A -> outcome B) (xs : list A) : outcome (list B) :=
  match xs with
  | [] => Ret []
  | x :: rest =>
      obind (f x) (fun y => obind (traverse f rest) (fun ys => Ret (y :: ys)))
  end.

(** [for x in xs: acc = step(acc, x)], stopping at the first exception. *)
Fixpoint foreach {A S} (step : S -> A -> outcome S) (xs : list A) (acc : S)
  : outcome S :=
  match xs with
  | [] => Ret acc
  | x :: rest => obind (step acc x) (foreach step rest)
  end.

(** ** Characters and Python's [int] *)

Definition code (c : ascii) : Z := Z.of_nat (nat_of_ascii c).

Definition in_range (lo hi : ascii) (c : ascii) : bool :=
  (code lo <=? code c) && (code c <=? code hi).

Definition is_digit : ascii -> bool := in_range "0" "9".

Definition digit_val (c : ascii) : Z := code c - 48.

(** White space as [int] skips it at the two ends of an ASCII text: tab,
    line feed, vertical tab, form feed, carriage return and the space.  (The
    separators 28 to 31 are white space for [str.strip] and not for [int].) *)
Definition is_space (c : ascii) : bool :=
  in_range "009" "013" c || (code c =? 32).

Fixpoint lstrip (l : list ascii) : list ascii :=
  match l with
  | c :: rest => if is_space c then lstrip rest else l
  | [] => []
  end.

Definition strip (l : list ascii) : list ascii :=
  rev (lstrip (rev (lstrip l))).

(** The digits of a decimal literal: single underscores may separate digits,
    and the literal starts and ends with a digit. *)
Fixpoint int_digits (acc : Z) (after_digit : bool) (l : list ascii) : option Z :=
  match l with
  | [] => if after_digit then Some acc else None
  | c :: rest =>
      if Ascii.eqb c "_" then
        if after_digit then int_digits acc false rest else None
      else if is_digit c then int_digits (10 * acc + digit_val c) true rest
      else None
  end.

(** The number of digits [int] accepts in a decimal literal, and [str] in
    the decimal form of an integer: the default of CPython 3.11 and later
    ([sys.get_int_max_str_digits()]). *)
Definition int_max_str_digits : Z := 4300.

(** The digits of a literal are counted without the underscores, leading
    zeros included. *)
Definition within_digit_limit (l : list ascii) : bool :=
  Z.of_nat (length (List.filter is_digit l)) <=? int_max_str_digits.

(** The literal after the sign: well-formed and within the limit. *)
Definition int_literal (l : list ascii) : option Z :=
  match int_digits 0 false l with
  | Some z => if within_digit_limit l then Some z else None
  | None => None
  end.

(** [int(s)] for a string [s], base ten: surrounding white space, an optional
    sign, then the digits.  [None] stands for the ValueError of a text that
    is no literal or has too many digits. *)
Definition int_of_str (s : string) : option Z :=
  match strip (list_ascii_of_string s) with
  | c :: rest =>
      if Ascii.eqb c "-" then Z.opp <$> int_literal rest
      else if Ascii.eqb c "+" then int_literal rest
      else int_literal (c :: rest)
  | [] => None
  end.

(** The values the code hands to [int]: an integer, a string (an argument of
    the caller or the text of an element) or [None] (the text of an empty
    element). *)
Inductive pyval : Type :=
  | PyInt (z : Z)
  | PyStr (s : string)
  | PyNone.

Definition py_of_text (t : option string) : pyval :=
  match t with
  | Some s => PyStr s
  | None => PyNone
  end.

Definition int_py (v : pyval) : outcome Z :=
  match v with
  | PyInt z => Ret z
  | PyStr s =>
      match int_of_str s with
      | Some z => Ret z
      | None => Raise (ValueError "invalid literal for int() with base 10")
      end
  | PyNone => Raise TypeError
  end.

(** [str(n)] for an integer, as an f-string renders it.  CPython 3.11 and
    later raise ValueError instead when the decimal form has more than
    [int_max_str_digits] digits; integers of that size are outside the
    model. *)
Definition str_of_int (z : Z) : string := NilZero.string_of_int (Z.to_int z).

(** ** Dates *)

Record date : Type := Date { year : Z; month : Z; day : Z }.

Definition is_leap (y : Z) : bool :=
  (y mod 4 =? 0) && (negb (y mod 100 =? 0) || (y mod 400 =? 0)).

Definition days_in_month (y m : Z) : Z :=
  if m =? 2 then (if is_leap y then 29 else 28)
  else if (m =? 4) || (m =? 6) || (m =? 9) || (m =? 11) then 30
  else 31.

(** [datetime.date(y, m, d)]: years 1 to 9999, a month of the year, a day of
    that month. *)
Definition date_new (y m d : Z) : outcome date :=
  if (1 <=? y) && (y <=? 9999) then
    if (1 <=? m) && (m <=? 12) then
      if (1 <=? d) && (d <=? days_in_month y m) then Ret (Date y m d)
      else Raise (ValueError "day is out of range for month")
    else Raise (ValueError "month must be in 1..12")
  else Raise (ValueError "year is out of range").

#[global] Instance date_eq_dec : EqDecision date.
Proof. solve_decision. Defined.

(** Dates compare as the triples (year, month, day). *)
Definition date_ltb (a b : date) : bool :=
  (year a <? year b)
  || ((year a =? year b)
      && ((month a <? month b)
          || ((month a =? month b) && (day a <? day b)))).

Definition date_gtb (a b : date) : bool := date_ltb b a.
Definition date_leb (a b : date) : bool := negb (date_ltb b a).

Definition date_lt (a b : date) : Prop := date_ltb a b = true.
Definition date_le (a b : date) : Prop := date_leb a b = true.

(** One decimal digit of [n], as a character: [digit_char 1 n] is the tens. *)
Definition digit_char (k : nat) (n : Z) : ascii :=
  ascii_of_nat (Z.to_nat (48 + (n / 10 ^ Z.of_nat k) mod 10)).

(** [str(d)], that is [d.isoformat()]: the format [%04d-%02d-%02d]. *)
Definition isoformat (d : date) : string :=
  string_of_list_ascii
    [ digit_char 3 (year d); digit_char 2 (year d);
      digit_char 1 (year d); digit_char 0 (year d); "-"%char;
      digit_char 1 (month d); digit_char 0 (month d); "-"%char;
      digit_char 1 (day d); digit_char 0 (day d) ].

(** ** [datetime.strptime]

    [strptime] turns the format into a regular expression, matches it at the
    start of the text with a backtracking matcher and refuses text left over
    after the match.  Each directive is embedded as the list of its matches at
    the head of the input, in the order the alternatives are tried:
    - [%d] is [3[0-1]|[1-2]\d|0[1-9]|[1-9]| [1-9]],
    - [%m] is [1[0-2]|0[1-9]|[1-9]],
    - [%Y] is [\d\d\d\d]. *)

Definition lexer (A : Type) : Type := list ascii -> list (A * list ascii).

Definition two_chars (p q : ascii -> bool) : lexer Z := fun s =>
  match s with
  | a :: b :: rest =>
      if p a && q b then [(10 * digit_val a + digit_val b, rest)] else []
  | _ => []
  end.

Definition one_char (p : ascii -> bool) : lexer Z := fun s =>
  match s with
  | a :: rest => if p a then [(digit_val a, rest)] else []
  | _ => []
  end.

Definition after_space (p : lexer Z) : lexer Z := fun s =>
  match s with
  | a :: rest => if Ascii.eqb a " " then p rest else []
  | _ => []
  end.

Definition re_d : lexer Z := fun s =>
  two_chars (in_range "3" "3") (in_range "0" "1") s
  ++ two_chars (in_range "1" "2") is_digit s
  ++ two_chars (in_range "0" "0") (in_range "1" "9") s
  ++ one_char (in_range "1" "9") s
  ++ after_space (one_char (in_range "1" "9")) s.

Definition re_m : lexer Z := fun s =>
  two_chars (in_range "1" "1") (in_range "0" "2") s
  ++ two_chars (in_range "0" "0") (in_range "1" "9") s
  ++ one_char (in_range "1" "9") s.

Definition re_Y : lexer Z := fun s =>
  match s with
  | a :: b :: c :: d :: rest =>
      if is_digit a && is_digit b && is_digit c && is_digit d then
        [(1000 * digit_val a + 100 * digit_val b + 10 * digit_val c
          + digit_val d, rest)]
      else []
  | _ => []
  end.

Definition dash : lexer unit := fun s =>
  match s with
  | a :: rest => if Ascii.eqb a "-" then [(tt, rest)] else []
  | _ => []
  end.

(** Sequencing of two pieces of a pattern, with backtracking. *)
Definition lex_bind {A B} (p : lexer A) (k : A -> lexer B) : lexer B :=
  fun s => flat_map (fun '(a, rest) => k a rest) (p s).

Definition lex_ret {A} (a : A) : lexer A := fun s => [(a, s)].

Notation "x <~ p ; k" := (lex_bind p (fun x => k))
  (at level 100, p at next level, right associativity, only parsing).

(** The pattern of [%Y-%m-%d]; the result is (year, month, day). *)
Definition re_ymd : lexer (Z * Z * Z) :=
  y <~ re_Y; _ <~ dash; m <~ re_m; _ <~ dash; d <~ re_d; lex_ret (y, m, d).

(** The pattern of [%d-%m-%Y]. *)
Definition re_dmy : lexer (Z * Z * Z) :=
  d <~ re_d; _ <~ dash; m <~ re_m; _ <~ dash; y <~ re_Y; lex_ret (y, m, d).

(** The first match decides; text after it is an error, and so is a day,
    month or year that [date] refuses. *)
Definition strptime_with (re : lexer (Z * Z * Z)) (s : string) : outcome date :=
  match re (list_ascii_of_string s) with
  | [] => Raise (ValueError "time data does not match format")
  | ((y, m, d), []) :: _ => date_new y m d
  | (_, _ :: _) :: _ => Raise (ValueError "unconverted data remains")
  end.

(** [datetime.strptime(s, "%Y-%m-%d").date()] *)
Definition strptime_ymd : string -> outcome date := strptime_with re_ymd.

(** [datetime.strptime(s, "%d-%m-%Y").date()] *)
Definition strptime_dmy : string -> outcome date := strptime_with re_dmy.

(** [strptime] on the text of an element: [None] is not a string. *)
Definition strptime_dmy_text (t : option string) : outcome date :=
  match t with
  | Some s => strptime_dmy s
  | None => Raise TypeError
  end.


(** ** Stable sorting by date

    [list.sort(key=...)] is stable: entries with equal keys keep their order.
    The stable arrangement of a list is unique, so insertion stands for it:
    an entry goes in front of the first later entry whose key is not smaller. *)

Section sort_by.
Context {A : Type} (key : A -> date).

Fixpoint insert_by (x : A) (l : list A) : list A :=
  match l with
  | [] => [x]
  | y :: rest =>
      if date_leb (key x) (key y) then x :: l else y :: insert_by x rest
  end.

Definition sort_by (l : list A) : list A := fold_right insert_by [] l.
End sort_by.

(** ** Element trees *)

(** An [xml.etree.ElementTree.Element]: its tag, its [text] ([None] when the
    element has no character data before its first child) and its children. *)
#[warnings="-register-all"]
Inductive element : Type :=
  | Element (tag : string) (text : option string) (children : list element).

Definition tag (e : element) : string := let 'Element t _ _ := e in t.
Definition text (e : element) : option string := let 'Element _ t _ := e in t.
Definition children (e : element) : list element := let 'Element _ _ c := e in c.

(** [e.iter()]: the element and everything below it, in document order. *)
Fixpoint iter (e : element) : list element :=
  match e with
  | Element _ _ cs => e :: List.flat_map iter cs
  end.

Definition has_tag (name : string) (e : element) : bool := String.eqb (tag e) name.

(** [root.findall(".//name")]: every element below the root with that tag, in
    document order (the root itself is not a candidate). *)
Definition findall (name : string) (root : element) : list element :=
  List.filter (has_tag name) (List.flat_map iter (children root)).

(** [root.find(".//name")] *)
Definition find_below (name : string) (root : element) : option element :=
  head (findall name root).

(** [e.find("name")]: the first child with that tag. *)
Definition find (name : string) (e : element) : option element :=
  List.find (has_tag name) (children e).

(** [x.text] where [x] is the result of a [find]: on [None] the attribute
    access raises. *)
Definition text_of (x : option element) : outcome (option string) :=
  match x with
  | Some e => Ret (text e)
  | None => Raise AttributeError
  end.

(** [x is None] *)
Definition is_None (x : option element) : bool :=
  match x with
  | None => true
  | Some _ => false
  end.

(** ** Entities *)

(** Modelled from the spec: the module [entities] is imported by the client
    but is not part of the sources at hand.  The records below are the
    spec's value records with the fields the client passes by keyword; an
    integer field has the type of a Python integer.  What the spec says
    beyond the shape of a record, that the two counts of an Availability are
    non-negative, is a property of its constructor: see [agrees_with_spec]
    below. *)
Record LinkedRate : Type := mkLinkedRate {
  rate_id : Z;
  rate_description : option string;
  linked_room_id : Z  (* the keyword [room_id] of [LinkedRate] *)
}.

Record Room : Type := mkRoom {
  room_id : Z;
  room_name : option string;
  linked_rate : option LinkedRate
}.

Record RoomList : Type := mkRoomList { rooms : list Room }.

Record Availability : Type := mkAvailability {
  inventory_available : Z;
  literal_inventory : Z;
  dtm : date
}.


(** [room.linked_rate = lr] *)
Definition set_linked_rate (lr : LinkedRate) (r : Room) : Room :=
  {| room_id := room_id r; room_name := room_name r; linked_rate := Some lr |}.

(** ** The network, the clock and the monad of operations *)

Record request : Type := mkRequest {
  req_method : string;
  req_url : string;
  req_content_type : string;
  req_soap_action : string;
  req_data : string
}.

(** The text of a response, represented by what [ET.fromstring] makes of it:
    the tree of a well-formed document, or [None] for text that is not one. *)
Definition response_text : Type := option element.

(** What [requests.request] meets: no answer at all, or a status and a text. *)
Inductive reply : Type :=
  | NoAnswer
  | Answer (status : Z) (body : response_text).

(** The world outside the client: the date the clock shows at its [k]-th
    reading, and the answer of the service to a request. *)
Record world : Type := mkWorld {
  clock : nat -> date;
  server : request -> reply
}.

(** The trace of an execution: the requests sent so far, oldest first, and the
    number of times the clock was read. *)
Record effects : Type := mkEffects {
  sent : list request;
  clock_reads : nat
}.

Definition M (A : Type) : Type := effects -> outcome A * effects.

Definition ret {A} (a : A) : M A := fun st => (Ret a, st).
Definition raise {A} (e : exn) : M A := fun st => (Raise e, st).
Definition lift {A} (o : outcome A) : M A := fun st => (o, st).

Definition bind {A B} (m : M A) (k : A -> M B) : M B := fun st =>
  match m st with
  | (Ret a, st') => k a st'
  | (Raise e, st') => (Raise e, st')
  end.

Notation "'let*' x ':=' m 'in' k" := (bind m (fun x => k))
  (at level 10, x pattern, m at level 100, k at level 200, only parsing).

(** ** The client *)

Record DimsInventoryClient : Type := mkClient {
  username : option string;
  password : option string;
  token : option string
}.

Definition _INVENTORY_SERVICE_URL_ : string :=
  "https://dims.ignitetravel.com/IMSXML/RewardsCorpIMS.asmx?wsdl".
Definition _RATES_SERVICE_URL_ : string :=
  "https://dims.ignitetravel.com/RMSXML/RateInterfaceService.asmx?wsdl".

(** Truth value of what [os.getenv] returns: [None] and the empty string are
    false. *)
Definition truthy (v : option string) : bool :=
  match v with
  | Some (String _ _) => true
  | _ => false
  end.

(** [DimsInventoryClient()], given [os.environ]. *)
Definition init (environ : gmap string string) : outcome DimsInventoryClient :=
  let self := {| username := environ !! "IGNITE_USERNAME";
                 password := environ !! "IGNITE_PASSWORD";
                 token := environ !! "IGNITE_TOKEN" |} in
  if negb (forallb truthy [username self; password self; token self]) then
    Raise (ValueError
      "Username, password and token must be set in the environment variables.")
  else Ret self.

(** The double quote, and a quoted attribute value. *)
Definition dq : string := String (ascii_of_nat 34) EmptyString.
Definition q (s : string) : string := dq +:+ s +:+ dq.

(** How an f-string renders a field of the client. *)
Definition fmt_opt (v : option string) : string := default "None" v.

Definition format_soap_envelope (self : DimsInventoryClient) (payload : string)
  : string :=
  "<?xml version=" +:+ q "1.0" +:+ " encoding=" +:+ q "utf-8" +:+ "?>
<soap:Envelope xmlns:xsi="
  +:+ q "http://www.w3.org/2001/XMLSchema-instance" +:+ "
               xmlns:xsd=" +:+ q "http://www.w3.org/2001/XMLSchema" +:+ "
               xmlns:soap="
  +:+ q "http://schemas.xmlsoap.org/soap/envelope/" +:+ ">
    <soap:Header>
        <Authentication xmlns="
  +:+ q "https://dims.ignitetravel.com/IMSXML" +:+ ">
            <UserName>" +:+ fmt_opt (username self) +:+ "</UserName>
            <PassWord>" +:+ fmt_opt (password self) +:+ "</PassWord>
            <Token>" +:+ fmt_opt (token self) +:+ "</Token>
        </Authentication>
    </soap:Header>
    <soap:Body>
        " +:+ payload +:+ "
    </soap:Body>
</soap:Envelope>".

(** [requests.request(...)]: one request leaves, whatever comes back. *)
Definition requests_request (w : world) (r : request) : M (Z * response_text) :=
  fun st =>
    let st' := {| sent := sent st ++ [r]; clock_reads := clock_reads st |} in
    match server w r with
    | NoAnswer => (Raise ConnectionError, st')
    | Answer status body => (Ret (status, body), st')
    end.

(** [response.raise_for_status()] *)
Definition raise_for_status (status : Z) : outcome unit :=
  if (400 <=? status) && (status <? 600) then Raise HTTPError else Ret tt.

(** [datetime.now().date()] *)
Definition now_date (w : world) : M date := fun st =>
  (Ret (clock w (clock_reads st)),
   {| sent := sent st; clock_reads := S (clock_reads st) |}).

(** [ET.fromstring(response)] *)
Definition ET_fromstring (response : response_text) : outcome element :=
  match response with
  | Some root => Ret root
  | None => Raise ParseError
  end.

Section operations.
Context (w : world) (self : DimsInventoryClient).

(** The request [make_request] hands to [requests.request]. *)
Definition build_request (method payload action_header service_type : string)
  : request :=
  {| req_method := method;
     req_url := if String.eqb service_type "inventory"
                then _INVENTORY_SERVICE_URL_ else _RATES_SERVICE_URL_;
     req_content_type := "text/xml; charset=utf-8";
     req_soap_action :=
       "https://dims.ignitetravel.com/IMSXML/" +:+ action_header;
     req_data := format_soap_envelope self payload |}.

Definition make_request (method payload action_header service_type : string)
  : M response_text :=
  let* response :=
    requests_request w
      (build_request method payload action_header service_type) in
  let* _ := lift (raise_for_status (fst response)) in
  ret (snd response).

(** *** get_roomlist *)

Definition roomlist_body (resort_id : Z) : string :=
  "<GetRoomList xmlns=" +:+ q "https://dims.ignitetravel.com/IMSXML" +:+ ">
            <Message>
                <RewardsCorpIMS xmlns=" +:+ q EmptyString +:+ ">
                    <Request>RoomsList</Request>
                    <ResortId>" +:+ str_of_int resort_id +:+ "</ResortId>
                </RewardsCorpIMS>
            </Message>
        </GetRoomList>".

(** The body of the loop over the room elements. *)
Definition parse_room (room : element) : outcome Room :=
  obind (text_of (find "RoomTypeId" room)) (fun room_id =>
  obind (text_of (find "Description" room)) (fun description =>
  obind (int_py (py_of_text room_id)) (fun room_id =>
  Ret {| room_id := room_id; room_name := description;
         linked_rate := None |}))).

(** The guard of the loop over the linked-rate elements. *)
Definition lacks_field (linked_rate : element) : bool :=
  is_None (find "RateId" linked_rate)
  || is_None (find "RoomId" linked_rate)
  || is_None (find "RateDescription" linked_rate).

(** [next((r for r in rooms if r.room_id == n), None)], with the position
    of the room found: the list holds one object per room element, so
    assigning to a field of the room found changes that position and no
    other. *)
Definition next_room (rooms : list Room) (n : Z) : option (nat * Room) :=
  list_find (fun r => room_id r = n) rooms.

(** Lines 91 to 94: the record made from a linked-rate element that passed
    the guard. *)
Definition linked_rate_model (linked_rate : element) : outcome LinkedRate :=
  obind (text_of (find "RateId" linked_rate)) (fun rate_id =>
  obind (text_of (find "RateDescription" linked_rate)) (fun rate_description =>
  obind (text_of (find "RoomId" linked_rate)) (fun room_id =>
  obind (int_py (py_of_text rate_id)) (fun rate_id =>
  obind (int_py (py_of_text room_id)) (fun room_id =>
  Ret {| rate_id := rate_id; rate_description := rate_description;
         linked_room_id := room_id |}))))).

(** Lines 96 to 98: the first room with the referenced identifier, if there
    is one, gets the record (a room object counts as true). *)
Definition assign_linked_rate (rooms : list Room) (model : LinkedRate)
  : list Room :=
  match next_room rooms (linked_room_id model) with
  | Some (i, room_model) => <[i := set_linked_rate model room_model]> rooms
  | None => rooms
  end.

(** The body of the loop over the linked-rate elements; [rooms] is the list
    built by the first loop, in its current state. *)
Definition attach_linked_rate (rooms : list Room) (linked_rate : element)
  : outcome (list Room) :=
  if lacks_field linked_rate then Ret rooms
  else obind (linked_rate_model linked_rate) (fun model =>
       Ret (assign_linked_rate rooms model)).

(** Lines 79 to 100: from the response tree to the room list. *)
Definition parse_roomlist (root : element) : outcome RoomList :=
  obind (traverse parse_room (findall "Room" root)) (fun rooms =>
  obind (foreach attach_linked_rate (findall "LinkedRate" root) rooms)
    (fun rooms => Ret {| rooms := rooms |})).

Definition get_roomlist (resort_id : pyval) (action_header : string)
  : M RoomList :=
  let* resort_id :=
    lift (except_ValueError (int_py resort_id)
            "Resort ID must be an integer") in
  let soap_body := roomlist_body resort_id in
  let* response := make_request "POST" soap_body action_header "inventory" in
  let* root := lift (ET_fromstring response) in
  lift (parse_roomlist root).

(** *** retrieve_availability *)

Definition availability_body (room_id resort_id : Z)
    (start_date end_date : string) : string :=
  "<RetrieveAvailability xmlns="
  +:+ q "https://dims.ignitetravel.com/IMSXML" +:+ ">
            <Message>
                <RewardsCorpIMS xmlns=" +:+ q EmptyString +:+ ">
                    <Request>Availability</Request>
                    <RoomId>" +:+ str_of_int room_id +:+ "</RoomId>
                    <ResortId>" +:+ str_of_int resort_id +:+ "</ResortId>
                    <Dates>
                        <Date>" +:+ start_date +:+ "</Date>
                        <Date>" +:+ end_date +:+ "</Date>
                    </Dates>
                </RewardsCorpIMS>
            </Message>
        </RetrieveAvailability>".

(** [strftime("%Y-%m-%d")], with the year on four digits. *)
Definition strftime_ymd (d : date) : string := isoformat d.

(** The body of the loop over the date entries. *)
Definition parse_dateset (dateset : element) : outcome Availability :=
  obind (text_of (find "InventoryAvailable" dateset)) (fun inventory_available =>
  obind (text_of (find "LiteralInventory" dateset)) (fun literal_inventory =>
  obind (text_of (find "Date" dateset)) (fun date_text =>
  obind (strptime_dmy_text date_text) (fun dtm =>
  obind (int_py (py_of_text inventory_available)) (fun inventory_available =>
  obind (int_py (py_of_text literal_inventory)) (fun literal_inventory =>
  Ret {| inventory_available := inventory_available;
         literal_inventory := literal_inventory; dtm := dtm |})))))).

(** Lines 141 to 150: from the response tree to the sorted sequence. *)
Definition parse_availability (root : element) : outcome (list Availability) :=
  obind (traverse parse_dateset (findall "DateSet" root)) (fun availability =>
  Ret (sort_by dtm availability)).

(** The same lines with the call [Availability(...)] left to a constructor
    [make], for what depends on the constructor; [parse_dateset] and
    [parse_availability] above are the instance in which the constructor
    stores its three arguments. *)
Definition parse_dateset_with
    (make : Z -> Z -> date -> outcome Availability) (dateset : element)
  : outcome Availability :=
  obind (text_of (find "InventoryAvailable" dateset)) (fun inventory_available =>
  obind (text_of (find "LiteralInventory" dateset)) (fun literal_inventory =>
  obind (text_of (find "Date" dateset)) (fun date_text =>
  obind (strptime_dmy_text date_text) (fun dtm =>
  obind (int_py (py_of_text inventory_available)) (fun inventory_available =>
  obind (int_py (py_of_text literal_inventory)) (fun literal_inventory =>
  make inventory_available literal_inventory dtm)))))).


Definition retrieve_availability (room_id resort_id : pyval)
    (start_date end_date : string) (action_header : string)
  : M (list Availability) :=
  let* ids :=
    lift (except_ValueError
            (obind (int_py resort_id) (fun resort_id =>
             obind (int_py room_id) (fun room_id =>
             Ret (resort_id, room_id))))
            "Resort ID and Room ID must be integers") in
  let* dates :=
    lift (except_ValueError
            (obind (strptime_ymd start_date) (fun start_date =>
             obind (strptime_ymd end_date) (fun end_date =>
             Ret (start_date, end_date))))
            "Invalid date format") in
  let resort_id := fst ids in
  let room_id := snd ids in
  let start_date := fst dates in
  let end_date := snd dates in
  if date_gtb start_date end_date then
    raise (ValueError "Start date must be before end date")
  else
    let* now := now_date w in
    if date_ltb start_date now then
      raise (ValueError "Start date must be in the future")
    else
      let* now := now_date w in
      if date_ltb end_date now then
        raise (ValueError "End date must be in the future")
      else
        let soap_body :=
          availability_body room_id resort_id
            (strftime_ymd start_date) (strftime_ymd end_date) in
        let* response :=
          make_request "POST" soap_body action_header "inventory" in
        let* root := lift (ET_fromstring response) in
        lift (parse_availability root).

(** *** update_availability *)

(** The request body, given the rendering of the date. *)
Definition update_body (room_id resort_id : Z) (date : string) (qty : Z)
  : string :=
  "<UpdateInventory xmlns=" +:+ q "https://dims.ignitetravel.com/IMSXML"
  +:+ ">
            <Message>
                <RewardsCorpIMS xmlns=" +:+ q EmptyString +:+ ">
                    <Request>InventoryUpdate</Request>
                    <RoomId>" +:+ str_of_int room_id +:+ "</RoomId>
                    <ResortId>" +:+ str_of_int resort_id +:+ "</ResortId>
                    <Dates>
                        <DatesSet>
                            <Date>" +:+ date +:+ "</Date>
                            <InventoryAllocation>" +:+ str_of_int qty
  +:+ "</InventoryAllocation>
                        </DatesSet>
                    </Dates>
                </RewardsCorpIMS>
            </Message>
        </UpdateInventory>".

Definition update_availability (room_id resort_id : pyval) (date : string)
    (qty : pyval) (action_header : string) : M (option string) :=
  let* ids :=
    lift (except_ValueError
            (obind (int_py room_id) (fun room_id =>
             obind (int_py resort_id) (fun resort_id =>
             obind (int_py qty) (fun qty =>
             Ret (room_id, resort_id, qty)))))
            "Room ID, Resort ID and Quantity must be integers") in
  let* date :=
    lift (except_ValueError (strptime_dmy date) "Invalid date format") in
  let '(room_id, resort_id, qty) := ids in
  (* the f-string renders the date object with [str] *)
  let soap_body := update_body room_id resort_id (isoformat date) qty in
  let* response := make_request "POST" soap_body action_header "inventory" in
  let* root := lift (ET_fromstring response) in
  let* message := lift (text_of (find_below "Message" root)) in
  ret message.

(** *** get_bookings *)

Definition bookings_body (resort_id : Z) (start_date end_date : string)
  : string :=
  "<GetBookingsListWithRoomRateIds xmlns="
  +:+ q "https://dims.ignitetravel.com/IMSXML" +:+ ">
            <Message>
                <RewardsCorpIMS xmlns=" +:+ q EmptyString +:+ ">
                    <Request>GetBookingsListWithRoomRateIds</Request>
                    <ResortId>" +:+ str_of_int resort_id +:+ "</ResortId>
                    <Dates>
                        <Date>" +:+ start_date +:+ "</Date>
                        <Date>" +:+ end_date +:+ "</Date>
                    </Dates>
                </RewardsCorpIMS>
            </Message>
        </GetBookingsListWithRoomRateIds>".

(** Lines 213 to 219.  The value is [Some []] for the statement
    [return []], and [None] when the end of the body is reached. *)
Definition parse_bookings (root : element) : outcome (option (list pyval)) :=
  obind (text_of (find_below "MessageType" root)) (fun message_type =>
  obind (text_of (find_below "Message" root)) (fun message =>
  if bool_decide (message_type = Some "Error") then Ret (Some [])
  else Ret None)).

Definition get_bookings (resort_id : pyval) (start_date end_date : string)
    (action_header : string) : M (option (list pyval)) :=
  let* resort_id :=
    lift (except_ValueError (int_py resort_id)
            "Resort ID must be an integer") in
  let* dates :=
    lift (except_ValueError
            (obind (strptime_ymd start_date) (fun start_date =>
             obind (strptime_ymd end_date) (fun end_date =>
             Ret (start_date, end_date))))
            "Invalid date format") in
  (* the f-string renders the date objects with [str] *)
  let soap_body :=
    bookings_body resort_id (isoformat (fst dates)) (isoformat (snd dates)) in
  let* response := make_request "POST" soap_body action_header "inventory" in
  let* root := lift (ET_fromstring response) in
  lift (parse_bookings root).
End operations.

(** The default action headers of the four operations. *)
Definition GetRoomList : string := "GetRoomList".
Definition RetrieveAvailability : string := "RetrieveAvailability".
Definition UpdateInventory : string := "UpdateInventory".
Definition GetBookingsListWithRoomRateIds : string :=
  "GetBookingsListWithRoomRateIds".

(** An execution that starts with nothing sent and the clock unread. *)
Definition fresh : effects := {| sent := []; clock_reads := 0 |}.


(** ** Notions used in the statements *)

(** What the spec calls a linked-rate element that misses a required field. *)
Definition missing_required_field (linked_rate : element) : Prop :=
  find "RateId" linked_rate = None
  \/ find "RateDescription" linked_rate = None
  \/ find "RoomId" linked_rate = None.

(** A room after the linked-rate pass, against the room before it: the same
    identifier and name, and a linked-rate slot that either is as it was or
    holds a record that references this room. *)
Definition slot_filled_only (before after : Room) : Prop :=
  room_id after = room_id before
  /\ room_name after = room_name before
  /\ (linked_rate after = linked_rate before
      \/ exists model, linked_rate after = Some model
                       /\ linked_room_id model = room_id before).

(** The identifier a room element carries, as the first loop reads it. *)
Definition room_type_id (room : element) : outcome Z :=
  obind (text_of (find "RoomTypeId" room)) (fun t => int_py (py_of_text t)).

(** The text of the inventory-update body before and after its Date
    element. *)
Definition update_body_head (room_id resort_id : Z) : string :=
  "<UpdateInventory xmlns=" +:+ q "https://dims.ignitetravel.com/IMSXML"
  +:+ ">
            <Message>
                <RewardsCorpIMS xmlns=" +:+ q EmptyString +:+ ">
                    <Request>InventoryUpdate</Request>
                    <RoomId>" +:+ str_of_int room_id +:+ "</RoomId>
                    <ResortId>" +:+ str_of_int resort_id +:+ "</ResortId>
                    <Dates>
                        <DatesSet>
                            ".

Definition update_body_tail (qty : Z) : string :=
  "
                            <InventoryAllocation>" +:+ str_of_int qty
  +:+ "</InventoryAllocation>
                        </DatesSet>
                    </Dates>
                </RewardsCorpIMS>
            </Message>
        </UpdateInventory>".

(** A text of the form YYYY-MM-DD that spells the date [d]. *)
Definition spells_date (s : string) (d : date) : Prop :=
  exists y3 y2 y1 y0 m1 m0 d1 d0 : ascii,
    list_ascii_of_string s
    = [y3; y2; y1; y0; "-"; m1; m0; "-"; d1; d0]%char
    /\ forallb is_digit [y3; y2; y1; y0; m1; m0; d1; d0] = true
    /\ year d = 1000 * digit_val y3 + 100 * digit_val y2
                + 10 * digit_val y1 + digit_val y0
    /\ month d = 10 * digit_val m1 + digit_val m0
    /\ day d = 10 * digit_val d1 + digit_val d0.

(** The order a sequence sorted by [key] is in. *)
Definition key_le {A} (key : A -> date) (a b : A) : Prop :=
  date_le (key a) (key b).

(** ** Sample documents and worlds *)

Definition leaf (name value : string) : element := Element name (Some value) [].

Definition sample_client : DimsInventoryClient :=
  {| username := Some "u"; password := Some "p"; token := Some "t" |}.

(** A world whose clock shows one date and whose service answers every
    request with status 200 and one document. *)
Definition steady_world (today : date) (doc : element) : world :=
  {| clock := fun _ => today; server := fun _ => Answer 200 (Some doc) |}.

Definition empty_doc : element := Element "Envelope" None [].

(** Two room elements with the same identifier. *)
Definition twin_rooms_doc : element :=
  Element "Envelope" None
    [ Element "Room" None [leaf "RoomTypeId" "1"; leaf "Description" "Sea view"];
      Element "Room" None [leaf "RoomTypeId" "1"; leaf "Description" "Garden"] ].

(** Two rooms; a complete linked rate for room 2, one without a description
    for room 1, and a complete one for a room 5 that is not listed. *)
Definition rooms_doc : element :=
  Element "Envelope" None
    [ Element "Room" None [leaf "RoomTypeId" "1"; leaf "Description" "Sea view"];
      Element "Room" None [leaf "RoomTypeId" "2"; leaf "Description" "Garden"];
      Element "LinkedRate" None
        [leaf "RateId" "7"; leaf "RateDescription" "Flexible"; leaf "RoomId" "2"];
      Element "LinkedRate" None [leaf "RateId" "8"; leaf "RoomId" "1"];
      Element "LinkedRate" None
        [leaf "RateId" "9"; leaf "RateDescription" "Saver"; leaf "RoomId" "5"] ].

Definition dateset (date available literal : string) : element :=
  Element "DateSet" None
    [ leaf "Date" date; leaf "InventoryAvailable" available;
      leaf "LiteralInventory" literal ].

(** The dates 2024-03-05, 2024-03-01 and 2024-03-03, in that order. *)
Definition three_dates_doc : element :=
  Element "Envelope" None
    [ dateset "05-03-2024" "4" "6"; dateset "01-03-2024" "2" "3";
      dateset "03-03-2024" "0" "1" ].

(** Two entries for one date, in the two possible orders. *)
Definition same_day_doc : element :=
  Element "Envelope" None
    [ dateset "01-03-2030" "1" "1"; dateset "01-03-2030" "2" "2" ].
Definition same_day_doc_swapped : element :=
  Element "Envelope" None
    [ dateset "01-03-2030" "2" "2"; dateset "01-03-2030" "1" "1" ].

(** An entry whose available count is written with a minus sign. *)
Definition negative_count_doc : element :=
  Element "Envelope" None [ dateset "01-03-2030" "-1" "0" ].


(** The constructor that stores its arguments, whatever their sign. *)
Definition stored_Availability (a l : Z) (d : date) : outcome Availability :=
  Ret {| inventory_available := a; literal_inventory := l; dtm := d |}.

(** The service reports an error, or a success, and sends no message. *)
Definition error_only_doc : element :=
  Element "Envelope" None [ leaf "MessageType" "Error" ].
Definition success_only_doc : element :=
  Element "Envelope" None [ leaf "MessageType" "Success" ].

(** The service reports an error, or a success, with a message. *)
Definition error_doc : element :=
  Element "Envelope" None
    [ leaf "MessageType" "Error"; leaf "Message" "Resort not found" ].
Definition success_doc : element :=
  Element "Envelope" None
    [ leaf "MessageType" "Success"; leaf "Message" "2 bookings";
      Element "Booking" None [ leaf "BookingId" "41" ];
      Element "Booking" None [ leaf "BookingId" "42" ] ].

(** [os.environ] with the three variables set. *)
Definition sample_environ : gmap string string :=
  <["IGNITE_USERNAME" := "u"]>
    (<["IGNITE_PASSWORD" := "p"]> (<["IGNITE_TOKEN" := "t"]> ∅)).

(** * Properties *)

Example int_of_str_samples :
  int_of_str " 12 " = Some 12 /\ int_of_str "-7" = Some (-7)
  /\ int_of_str "1_000" = Some 1000 /\ int_of_str "1__0" = None
  /\ int_of_str "abc" = None /\ int_of_str "+ 1" = None.
Proof. repeat split; reflexivity. Qed.

Example strptime_samples :
  strptime_ymd "2030-01-10" = Ret (Date 2030 1 10)
  /\ strptime_ymd "2030-1-5" = Ret (Date 2030 1 5)
  /\ strptime_dmy "10-01-2030" = Ret (Date 2030 1 10)
  /\ strptime_dmy "2030-01-10" = Raise (ValueError "time data does not match format")
  /\ strptime_ymd "2030-01-101" = Raise (ValueError "unconverted data remains")
  /\ strptime_ymd "2031-02-29" = Raise (ValueError "day is out of range for month")
  /\ isoformat (Date 2030 1 5) = "2030-01-05"
  /\ str_of_int 0 = "0" /\ str_of_int (-42) = "-42".
Proof. repeat split; vm_compute; reflexivity. Qed.

Example int_of_str_limits :
  int_of_str (string_of_list_ascii (repeat "1"%char 4300)) <> None
  /\ int_of_str (string_of_list_ascii (repeat "0"%char 4301)) = None
  /\ int_of_str (String (ascii_of_nat 28) "12") = None
  /\ int_of_str (String (ascii_of_nat 11) "12") = Some 12.
Proof. split_and!; vm_compute; done. Qed.

(** ** The order on dates *)

Ltac date_order :=
  unfold date_le, date_lt, date_leb, date_gtb, date_ltb in *;
  repeat match goal with d : date |- _ => destruct d end;
  cbn [year month day] in *;
  rewrite ?negb_true_iff, ?negb_false_iff, ?orb_true_iff, ?orb_false_iff,
    ?andb_true_iff, ?andb_false_iff, ?Z.ltb_lt, ?Z.ltb_ge, ?Z.eqb_eq,
    ?Z.eqb_neq in *.

Lemma date_leb_refl (a : date) : date_leb a a = true.
Proof. date_order. lia. Qed.

Lemma date_leb_total (a b : date) : date_leb a b = false -> date_leb b a = true.
Proof. date_order. lia. Qed.

Lemma date_leb_trans (a b c : date) :
  date_leb a b = true -> date_leb b c = true -> date_leb a c = true.
Proof. date_order. lia. Qed.

Lemma date_leb_antisym (a b : date) :
  date_leb a b = true -> date_leb b a = true -> a = b.
Proof. date_order. intros. f_equal; lia. Qed.

Lemma date_ltb_leb (a b : date) : date_ltb a b = negb (date_leb b a).
Proof. unfold date_leb. by rewrite negb_involutive. Qed.

(** ** Effects of a request *)

Lemma make_request_sends_one (w : world) (self : DimsInventoryClient)
    (method payload hdr svc : string) (st : effects) :
  snd (make_request w self method payload hdr svc st)
  = {| sent := sent st ++ [build_request self method payload hdr svc];
       clock_reads := clock_reads st |}.
Proof.
  unfold make_request, bind, requests_request, lift, ret.
  destruct (server w _) as [|status body]; [done|].
  cbn. by destruct (raise_for_status status).
Qed.

(** What a computation that only walks the response adds to the trace:
    nothing. *)
Lemma bind_lift_effects {A B} (m : M A) (f : A -> outcome B) (st : effects) :
  snd (bind m (fun a => lift (f a)) st) = snd (m st).
Proof. unfold bind, lift. by destruct (m st) as [[a|e] st']. Qed.

Lemma bind_bind {A B C} (m : M A) (k : A -> M B) (h : B -> M C) (st : effects) :
  bind (bind m k) h st = bind m (fun a => bind (k a) h) st.
Proof. unfold bind. by destruct (m st) as [[a|e] st']. Qed.

(** ** C1: validation of retrieve_availability *)

(** The run of the operation once both identifiers and both dates have been
    read: the three comparisons, then the request. *)
Lemma retrieve_availability_parsed (w : world) (self : DimsInventoryClient)
    (room_id resort_id : pyval) (start_date end_date hdr : string)
    (st : effects) (r m : Z) (s e : date) :
  int_py resort_id = Ret r -> int_py room_id = Ret m ->
  strptime_ymd start_date = Ret s -> strptime_ymd end_date = Ret e ->
  retrieve_availability w self room_id resort_id start_date end_date hdr st
  = if date_ltb e s then
      (Raise (ValueError "Start date must be before end date"), st)
    else if date_ltb s (clock w (clock_reads st)) then
      (Raise (ValueError "Start date must be in the future"),
       {| sent := sent st; clock_reads := S (clock_reads st) |})
    else if date_ltb e (clock w (S (clock_reads st))) then
      (Raise (ValueError "End date must be in the future"),
       {| sent := sent st; clock_reads := S (S (clock_reads st)) |})
    else
      bind (make_request w self "POST"
              (availability_body m r (strftime_ymd s) (strftime_ymd e))
              hdr "inventory")
        (fun response => bind (lift (ET_fromstring response))
           (fun root => lift (parse_availability root)))
        {| sent := sent st; clock_reads := S (S (clock_reads st)) |}.
Proof.
  intros Hr Hm Hs He. unfold retrieve_availability.
  rewrite Hr, Hm, Hs, He. cbn [obind except_ValueError fst snd].
  unfold bind at 1 2. cbn [lift fst snd]. unfold date_gtb.
  destruct (date_ltb e s); [done|].
  unfold bind at 1, now_date at 1. cbn [clock_reads sent].
  destruct (date_ltb s _); [done|].
  unfold bind at 1, now_date at 1. cbn [clock_reads sent].
  by destruct (date_ltb e _).
Qed.

(** C1.  retrieve_availability checks its arguments in a fixed order and
    before any request leaves: the two identifiers ([int] of the resort id,
    then of the room id), then the two dates (start, then end), then start
    against end, start against the clock and end against the clock.  The
    first check that fails raises its error and the later ones are not run
    (the clock is read only as far as the checks got).  A start date after the
    end date is rejected, a date before the date the clock shows is rejected,
    and a date equal to it is accepted: the request is sent. *)
Theorem retrieve_availability_validation (w : world)
    (self : DimsInventoryClient) (room_id resort_id : pyval)
    (start_date end_date hdr : string) (st : effects) :
  let run :=
    retrieve_availability w self room_id resort_id start_date end_date hdr st in
  let now1 := clock w (clock_reads st) in
  let now2 := clock w (S (clock_reads st)) in
  let ids_error := ValueError "Resort ID and Room ID must be integers" in
  let dates_error := ValueError "Invalid date format" in
  (forall msg, int_py resort_id = Raise (ValueError msg) ->
     run = (Raise ids_error, st))
  /\ (forall r msg, int_py resort_id = Ret r ->
        int_py room_id = Raise (ValueError msg) ->
        run = (Raise ids_error, st))
  /\ (forall r m, int_py resort_id = Ret r -> int_py room_id = Ret m ->
        (forall msg, strptime_ymd start_date = Raise (ValueError msg) ->
           run = (Raise dates_error, st))
        /\ (forall s msg, strptime_ymd start_date = Ret s ->
              strptime_ymd end_date = Raise (ValueError msg) ->
              run = (Raise dates_error, st))
        /\ (forall s e, strptime_ymd start_date = Ret s ->
              strptime_ymd end_date = Ret e ->
              (date_lt e s ->
                 run = (Raise (ValueError "Start date must be before end date"),
                        st))
              /\ (date_le s e -> date_lt s now1 ->
                    run = (Raise (ValueError "Start date must be in the future"),
                           {| sent := sent st;
                              clock_reads := S (clock_reads st) |}))
              /\ (date_le s e -> date_le now1 s -> date_lt e now2 ->
                    run = (Raise (ValueError "End date must be in the future"),
                           {| sent := sent st;
                              clock_reads := S (S (clock_reads st)) |}))
              /\ (date_le s e -> date_le now1 s -> date_le now2 e ->
                    snd run
                    = {| sent := sent st ++
                           [build_request self "POST"
                              (availability_body m r (strftime_ymd s)
                                 (strftime_ymd e)) hdr "inventory"];
                         clock_reads := S (S (clock_reads st)) |})
              /\ (s = now1 -> e = now2 -> date_le s e ->
                    sent (snd run) <> sent st)))
  /\ (sent (snd run) <> sent st ->
      exists r m s e,
        int_py resort_id = Ret r /\ int_py room_id = Ret m
        /\ strptime_ymd start_date = Ret s /\ strptime_ymd end_date = Ret e
        /\ date_le s e /\ date_le now1 s /\ date_le now2 e).
Proof.
  intros run now1 now2 ids_error dates_error.
  assert (Hsent : forall r m s e, int_py resort_id = Ret r ->
            int_py room_id = Ret m -> strptime_ymd start_date = Ret s ->
            strptime_ymd end_date = Ret e ->
            date_le s e -> date_le now1 s -> date_le now2 e ->
            snd run
            = {| sent := sent st ++
                   [build_request self "POST"
                      (availability_body m r (strftime_ymd s) (strftime_ymd e))
                      hdr "inventory"];
                 clock_reads := S (S (clock_reads st)) |}).
  { intros r m s e Hr Hm Hs He Hse H1 H2. subst run.
    rewrite (retrieve_availability_parsed _ _ _ _ _ _ _ _ r m s e) by done.
    unfold date_le, date_leb in Hse, H1, H2.
    apply negb_true_iff in Hse, H1, H2. fold now1 now2. rewrite Hse, H1, H2.
    rewrite <- bind_bind, bind_lift_effects, bind_lift_effects.
    by rewrite make_request_sends_one. }
  split_and!.
  - intros msg H. subst run. unfold retrieve_availability.
    by rewrite H.
  - intros r msg Hr H. subst run. unfold retrieve_availability.
    by rewrite Hr, H.
  - intros r m Hr Hm. split_and!.
    + intros msg H. subst run. unfold retrieve_availability.
      by rewrite Hr, Hm, H.
    + intros s msg Hs H. subst run. unfold retrieve_availability.
      by rewrite Hr, Hm, Hs, H.
    + intros s e Hs He.
      pose proof (retrieve_availability_parsed w self _ _ _ _ hdr st r m s e
                    Hr Hm Hs He) as Hrun.
      fold run now1 now2 in Hrun. split_and!.
      * intros H. rewrite Hrun. unfold date_lt in H. by rewrite H.
      * intros Hse H. rewrite Hrun. unfold date_le, date_leb, date_lt in *.
        apply negb_true_iff in Hse. by rewrite Hse, H.
      * intros Hse H1 H. rewrite Hrun. unfold date_le, date_leb, date_lt in *.
        apply negb_true_iff in Hse, H1. by rewrite Hse, H1, H.
      * intros. by eapply Hsent.
      * intros Hs1 He2 Hse.
        rewrite (Hsent r m s e); try done.
        -- cbn. intros Heq. apply (f_equal length) in Heq.
           rewrite length_app in Heq. cbn in Heq. lia.
        -- rewrite Hs1. apply date_leb_refl.
        -- rewrite He2. apply date_leb_refl.
  - intros Hnet.
    destruct (int_py resort_id) as [r|er] eqn:Hr; cycle 1.
    { exfalso. apply Hnet. subst run. unfold retrieve_availability.
      rewrite Hr. by destruct er. }
    destruct (int_py room_id) as [m|em] eqn:Hm; cycle 1.
    { exfalso. apply Hnet. subst run. unfold retrieve_availability.
      rewrite Hr, Hm. by destruct em. }
    destruct (strptime_ymd start_date) as [s|es] eqn:Hs; cycle 1.
    { exfalso. apply Hnet. subst run. unfold retrieve_availability.
      rewrite Hr, Hm, Hs. by destruct es. }
    destruct (strptime_ymd end_date) as [e|ee] eqn:He; cycle 1.
    { exfalso. apply Hnet. subst run. unfold retrieve_availability.
      rewrite Hr, Hm, Hs, He. by destruct ee. }
    exists r, m, s, e. split_and!; try done.
    all: unfold date_le, date_leb; apply negb_true_iff.
    all: match goal with |- ?b = false => destruct b eqn:Hb; [|done] end.
    all: exfalso; apply Hnet; subst run.
    all: rewrite (retrieve_availability_parsed _ _ _ _ _ _ _ _ r m s e) by done.
    + by rewrite Hb.
    + destruct (date_ltb e s); [done|]. fold now1. by rewrite Hb.
    + destruct (date_ltb e s); [done|]. fold now1.
      destruct (date_ltb s now1); [done|]. fold now2. by rewrite Hb.
Qed.

(** The checks on a clock that shows 2030-01-01: a stay of that one day is
    sent, and three rejected calls raise what the order of checks predicts. *)
Lemma retrieve_availability_validation_witness :
  let w := steady_world (Date 2030 1 1) empty_doc in
  (* a stay that starts and ends today is accepted: the request leaves *)
  sent (snd (retrieve_availability w sample_client (PyStr "7") (PyInt 12)
               "2030-01-01" "2030-01-01" RetrieveAvailability fresh)) <> []
  (* start after end *)
  /\ retrieve_availability w sample_client (PyStr "7") (PyInt 12)
       "2030-01-10" "2030-01-05" RetrieveAvailability fresh
     = (Raise (ValueError "Start date must be before end date"), fresh)
  (* yesterday *)
  /\ retrieve_availability w sample_client (PyStr "7") (PyInt 12)
       "2029-12-31" "2030-01-05" RetrieveAvailability fresh
     = (Raise (ValueError "Start date must be in the future"),
        {| sent := []; clock_reads := 1 |})
  (* a bad identifier wins over a bad date *)
  /\ retrieve_availability w sample_client (PyStr "seven") (PyInt 12)
       "yesterday" "2030-01-05" RetrieveAvailability fresh
     = (Raise (ValueError "Resort ID and Room ID must be integers"), fresh).
Proof.
  intros w. split_and!.
  - destruct (retrieve_availability_validation w sample_client (PyStr "7")
                (PyInt 12) "2030-01-01" "2030-01-01" RetrieveAvailability fresh)
      as (_ & _ & H & _).
    destruct (H 12 7 eq_refl eq_refl) as (_ & _ & H').
    destruct (H' (Date 2030 1 1) (Date 2030 1 1) eq_refl eq_refl)
      as (_ & _ & _ & _ & Hnow).
    exact (Hnow eq_refl eq_refl eq_refl).
  - destruct (retrieve_availability_validation w sample_client (PyStr "7")
                (PyInt 12) "2030-01-10" "2030-01-05" RetrieveAvailability fresh)
      as (_ & _ & H & _).
    destruct (H 12 7 eq_refl eq_refl) as (_ & _ & H').
    destruct (H' (Date 2030 1 10) (Date 2030 1 5) eq_refl eq_refl) as (Hlt & _).
    exact (Hlt eq_refl).
  - destruct (retrieve_availability_validation w sample_client (PyStr "7")
                (PyInt 12) "2029-12-31" "2030-01-05" RetrieveAvailability fresh)
      as (_ & _ & H & _).
    destruct (H 12 7 eq_refl eq_refl) as (_ & _ & H').
    destruct (H' (Date 2029 12 31) (Date 2030 1 5) eq_refl eq_refl)
      as (_ & Hpast & _).
    exact (Hpast eq_refl eq_refl).
  - destruct (retrieve_availability_validation w sample_client (PyStr "seven")
                (PyInt 12) "yesterday" "2030-01-05" RetrieveAvailability fresh)
      as (_ & Hid & _).
    exact (Hid 12 "invalid literal for int() with base 10" eq_refl eq_refl).
Defined.
(** ** Loops *)

Lemma traverse_Ret {A B} (f : A -> outcome B) (xs : list A) (ys : list B) :
  traverse f xs = Ret ys <-> Forall2 (fun x y => f x = Ret y) xs ys.
Proof.
  revert ys. induction xs as [|x xs IH]; intros ys; cbn.
  - split; [intros [= <-]; constructor | by inversion 1].
  - destruct (f x) as [y|e] eqn:Hx; cbn.
    + destruct (traverse f xs) as [ys'|e] eqn:Hxs; cbn.
      * split.
        -- intros [= <-]. constructor; [done|]. by apply IH.
        -- inversion 1 as [|? y' ? ys'' Hy Hys]; subst.
           apply IH in Hys. congruence.
      * split; [done|]. inversion 1 as [|? y' ? ys'' Hy Hys]; subst.
        apply IH in Hys. congruence.
    + split; [done|]. inversion 1; congruence.
Qed.

Lemma foreach_preserves {A S} (step : S -> A -> outcome S) (I : S -> Prop)
    (xs : list A) :
  (forall s x s', In x xs -> I s -> step s x = Ret s' -> I s') ->
  forall s s', I s -> foreach step xs s = Ret s' -> I s'.
Proof.
  induction xs as [|x xs IH]; intros Hstep s s' Hs; cbn.
  - by intros [= <-].
  - destruct (step s x) as [s1|e] eqn:Hx; cbn; [|done].
    apply IH; [|eapply Hstep; eauto using in_eq].
    intros; eapply Hstep; eauto using in_cons.
Qed.

(** ** The room list *)

Lemma lacks_field_spec (linked_rate : element) :
  lacks_field linked_rate = true <-> missing_required_field linked_rate.
Proof.
  unfold lacks_field, missing_required_field.
  destruct (find "RateId" _), (find "RoomId" _), (find "RateDescription" _);
    cbn; intuition discriminate.
Qed.

Lemma slot_filled_only_refl (r : Room) : slot_filled_only r r.
Proof. unfold slot_filled_only. auto. Qed.

Lemma slot_filled_only_trans (a b c : Room) :
  slot_filled_only a b -> slot_filled_only b c -> slot_filled_only a c.
Proof.
  unfold slot_filled_only.
  intros (Hid & Hname & Hl) (Hid' & Hname' & Hl').
  split_and!; [congruence..|].
  destruct Hl' as [Heq|(m & Hm & Href)].
  - destruct Hl as [Heq'|(m & Hm & Href)]; [left; congruence|].
    right. exists m. split; congruence.
  - right. exists m. split; congruence.
Qed.

Lemma assign_linked_rate_cases (rooms : list Room) (model : LinkedRate) :
  (assign_linked_rate rooms model = rooms
   /\ Forall (fun r => room_id r <> linked_room_id model) rooms)
  \/ exists (i : nat) (r : Room),
       rooms !! i = Some r /\ room_id r = linked_room_id model
       /\ (forall (j : nat) (r' : Room), rooms !! j = Some r' -> (j < i)%nat ->
             room_id r' <> linked_room_id model)
       /\ assign_linked_rate rooms model
          = <[i := set_linked_rate model r]> rooms.
Proof.
  unfold assign_linked_rate, next_room.
  destruct (list_find _ rooms) as [[i r]|] eqn:Hfind.
  - right. exists i, r. apply list_find_Some in Hfind as (Hi & Hr & Hfirst).
    split_and!; try done.
  - left. split; [done|]. by apply list_find_None in Hfind.
Qed.

Lemma assign_linked_rate_frame (rooms : list Room) (model : LinkedRate) :
  Forall2 slot_filled_only rooms (assign_linked_rate rooms model).
Proof.
  destruct (assign_linked_rate_cases rooms model)
    as [[-> _]|(i & r & Hi & Hr & _ & ->)].
  - apply Forall_Forall2_diag, Forall_forall.
    intros; apply slot_filled_only_refl.
  - apply Forall2_same_length_lookup_2; [by rewrite length_insert|].
    intros j x y Hx [(-> & <- & _)|[_ Hy]]%list_lookup_insert_Some.
    + assert (x = r) as -> by congruence.
      unfold slot_filled_only; cbn. split_and!; try done.
      right. by exists model.
    + assert (x = y) as -> by congruence. apply slot_filled_only_refl.
Qed.

Lemma attach_linked_rate_frame (rooms rooms' : list Room) (lr : element) :
  attach_linked_rate rooms lr = Ret rooms' ->
  Forall2 slot_filled_only rooms rooms'.
Proof.
  unfold attach_linked_rate. destruct (lacks_field lr).
  - intros [= <-]. apply Forall_Forall2_diag, Forall_forall.
    intros; apply slot_filled_only_refl.
  - destruct (linked_rate_model lr) as [m|e]; cbn; [|done].
    intros [= <-]. apply assign_linked_rate_frame.
Qed.

Lemma Forall2_slot_filled_only_trans (a b c : list Room) :
  Forall2 slot_filled_only a b -> Forall2 slot_filled_only b c ->
  Forall2 slot_filled_only a c.
Proof.
  apply Forall2_trans, slot_filled_only_trans.
Qed.

Lemma linked_rate_pass_frame (lrs : list element) (rooms rooms' : list Room) :
  foreach attach_linked_rate lrs rooms = Ret rooms' ->
  Forall2 slot_filled_only rooms rooms'.
Proof.
  apply (foreach_preserves attach_linked_rate
           (fun s => Forall2 slot_filled_only rooms s)).
  - intros s x s' _ Hs Hstep.
    eapply Forall2_slot_filled_only_trans; eauto using attach_linked_rate_frame.
  - apply Forall_Forall2_diag, Forall_forall.
    intros; apply slot_filled_only_refl.
Qed.

(** The two loops of [parse_roomlist], taken apart. *)
Lemma parse_roomlist_Ret (root : element) (rl : RoomList) :
  parse_roomlist root = Ret rl ->
  exists rooms0,
    traverse parse_room (findall "Room" root) = Ret rooms0
    /\ foreach attach_linked_rate (findall "LinkedRate" root) rooms0
       = Ret (rooms rl).
Proof.
  unfold parse_roomlist.
  destruct (traverse parse_room _) as [rooms0|e]; cbn; [|done].
  destruct (foreach attach_linked_rate _ rooms0) as [rooms1|e] eqn:Hpass;
    cbn; [|done].
  intros [= <-]. by exists rooms0.
Qed.

Lemma parse_room_Ret (room : element) (r : Room) :
  parse_room room = Ret r ->
  room_type_id room = Ret (room_id r) /\ linked_rate r = None
  /\ text_of (find "Description" room) = Ret (room_name r).
Proof.
  unfold parse_room, room_type_id.
  destruct (text_of (find "RoomTypeId" room)) as [t|e]; cbn; [|done].
  destruct (text_of (find "Description" room)) as [d|e]; cbn; [|done].
  destruct (int_py (py_of_text t)) as [n|e]; cbn; [|done].
  by intros [= <-].
Qed.
(** Every record found in a linked-rate slot was made from one of the
    elements the pass went through, and that element passed the guard. *)
Lemma linked_rate_pass_provenance (lrs : list element)
    (rooms rooms' : list Room) :
  Forall (fun r => linked_rate r = None) rooms ->
  foreach attach_linked_rate lrs rooms = Ret rooms' ->
  Forall (fun r => forall model, linked_rate r = Some model ->
            exists lr, In lr lrs /\ lacks_field lr = false
                       /\ linked_rate_model lr = Ret model) rooms'.
Proof.
  intros Hnone.
  apply (foreach_preserves attach_linked_rate
           (fun s => Forall (fun r => forall model,
                        linked_rate r = Some model ->
                        exists lr, In lr lrs /\ lacks_field lr = false
                                   /\ linked_rate_model lr = Ret model) s)).
  - intros s x s' Hin Hs. unfold attach_linked_rate.
    destruct (lacks_field x) eqn:Hguard; [by intros [= <-]|].
    destruct (linked_rate_model x) as [m|e] eqn:Hm; cbn; [|done].
    intros [= <-].
    destruct (assign_linked_rate_cases s m)
      as [[-> _]|(i & r & Hi & Hr & _ & ->)]; [done|].
    apply Forall_forall. intros r' Hr'.
    apply list_elem_of_lookup in Hr' as [j Hj].
    apply list_lookup_insert_Some in Hj as [(-> & <- & _)|[_ Hj]].
    + cbn. intros model [= <-]. by exists x.
    + rewrite Forall_forall in Hs. apply Hs.
      apply list_elem_of_lookup. by exists j.
  - eapply Forall_impl; [exact Hnone|]. cbn. intros r -> model. done.
Qed.

Lemma linked_rate_pass_skips (lrs : list element) (rooms : list Room) :
  foreach attach_linked_rate lrs rooms
  = foreach attach_linked_rate
      (List.filter (fun lr => negb (lacks_field lr)) lrs) rooms.
Proof.
  revert rooms. induction lrs as [|lr lrs IH]; intros rooms; [done|].
  cbn [List.filter foreach]. unfold attach_linked_rate at 1.
  destruct (lacks_field lr) eqn:Hguard; cbn [negb obind].
  - apply IH.
  - cbn [foreach]. unfold attach_linked_rate at 2. rewrite Hguard.
    destruct (linked_rate_model lr) as [m|e]; cbn; [apply IH|done].
Qed.

(** C2.  A linked-rate element that misses its rate identifier, its
    description or the identifier of the room it refers to is skipped by the
    room-list parse: its step returns the rooms as they are and raises
    nothing; the parse gives the same result, error or not, as on the linked
    rate elements that have all three fields; and every record found in a
    linked-rate slot of the result was made from an element that has all
    three. *)
Theorem incomplete_linked_rate_is_skipped (root : element) :
  (forall (rooms : list Room) (lr : element),
     missing_required_field lr -> attach_linked_rate rooms lr = Ret rooms)
  /\ parse_roomlist root
     = obind (traverse parse_room (findall "Room" root)) (fun rooms =>
       obind (foreach attach_linked_rate
                (List.filter (fun lr => negb (lacks_field lr))
                   (findall "LinkedRate" root)) rooms)
         (fun rooms => Ret {| rooms := rooms |}))
  /\ (forall (rl : RoomList) (r : Room) (model : LinkedRate),
        parse_roomlist root = Ret rl -> In r (rooms rl) ->
        linked_rate r = Some model ->
        exists lr, In lr (findall "LinkedRate" root)
                   /\ ~ missing_required_field lr
                   /\ linked_rate_model lr = Ret model).
Proof.
  split_and!.
  - intros rooms lr Hmiss%lacks_field_spec.
    unfold attach_linked_rate. by rewrite Hmiss.
  - unfold parse_roomlist.
    destruct (traverse parse_room _) as [rooms0|e]; cbn; [|done].
    by rewrite linked_rate_pass_skips.
  - intros rl r model (rooms0 & Hrooms & Hpass)%parse_roomlist_Ret Hin Hslot.
    apply linked_rate_pass_provenance in Hpass.
    + rewrite Forall_forall in Hpass.
      apply list_elem_of_In in Hin.
      destruct (Hpass r Hin model Hslot) as (lr & Hlr & Hguard & Hmodel).
      exists lr. split_and!; try done.
      rewrite <- lacks_field_spec. congruence.
    + apply traverse_Ret in Hrooms. clear -Hrooms.
      induction Hrooms as [|e r' ? ? Hr]; constructor; [|done].
      by apply parse_room_Ret in Hr as (_ & ? & _).
Qed.

(** In [rooms_doc] the rate without a description leaves room 1 without a
    linked rate, and the parse returns. *)
Lemma incomplete_linked_rate_is_skipped_witness :
  exists rl,
    parse_roomlist rooms_doc = Ret rl
    /\ map linked_rate (rooms rl)
       = [None; Some {| rate_id := 7; rate_description := Some "Flexible";
                        linked_room_id := 2 |}].
Proof.
  destruct (incomplete_linked_rate_is_skipped rooms_doc) as (Hstep & Hparse & _).
  eexists. split; [rewrite Hparse; vm_compute; reflexivity|].
  vm_compute. reflexivity.
Defined.

(** C6.  The rooms of the returned list are the room elements of the
    document, one for one and in document order, each with the identifier and
    name read from its element.  A step of the linked-rate pass either leaves
    the list as it is or replaces one room, the first whose identifier the
    record references, by the same room with the record in its slot: no room
    is moved, dropped or changed otherwise.  A record that references an
    identifier no room has leaves the list as it is, and its step raises
    nothing. *)
Theorem roomlist_order_and_frame :
  (forall (root : element) (rl : RoomList),
     parse_roomlist root = Ret rl ->
     Forall2 (fun e r => exists r0, parse_room e = Ret r0
                                    /\ slot_filled_only r0 r)
       (findall "Room" root) (rooms rl))
  /\ (forall (rooms rooms' : list Room) (lr : element),
        attach_linked_rate rooms lr = Ret rooms' ->
        Forall2 slot_filled_only rooms rooms'
        /\ (rooms' = rooms
            \/ exists (i : nat) (r : Room) (model : LinkedRate),
                 rooms !! i = Some r
                 /\ room_id r = linked_room_id model
                 /\ (forall (j : nat) (r' : Room),
                       rooms !! j = Some r' -> (j < i)%nat ->
                       room_id r' <> linked_room_id model)
                 /\ rooms' = <[i := set_linked_rate model r]> rooms))
  /\ (forall (rooms : list Room) (lr : element) (model : LinkedRate),
        lacks_field lr = false -> linked_rate_model lr = Ret model ->
        ~ In (linked_room_id model) (map room_id rooms) ->
        attach_linked_rate rooms lr = Ret rooms).
Proof.
  split_and!.
  - intros root rl (rooms0 & Hrooms & Hpass)%parse_roomlist_Ret.
    apply traverse_Ret in Hrooms. apply linked_rate_pass_frame in Hpass.
    eapply Forall2_trans; [|exact Hrooms|exact Hpass].
    cbn. intros e r0 r ? ?. by exists r0.
  - intros rooms rooms' lr Hstep. split; [by eapply attach_linked_rate_frame|].
    revert Hstep. unfold attach_linked_rate.
    destruct (lacks_field lr); [intros [= <-]; by left|].
    destruct (linked_rate_model lr) as [m|e]; cbn; [|done].
    intros [= <-].
    destruct (assign_linked_rate_cases rooms m)
      as [[-> _]|(i & r & Hi & Hr & Hfirst & ->)]; [by left|].
    right. by exists i, r, m.
  - intros rooms lr model Hguard Hmodel Habsent.
    unfold attach_linked_rate. rewrite Hguard, Hmodel. cbn. f_equal.
    destruct (assign_linked_rate_cases rooms model)
      as [[-> _]|(i & r & Hi & Hr & _ & _)]; [done|].
    exfalso. apply Habsent. rewrite <- Hr. apply in_map.
    apply list_elem_of_In, list_elem_of_lookup. by exists i.
Qed.

(** [rooms_doc] gives rooms 1 and 2 in that order, and a rate for the
    unlisted room 5 leaves a list as it is. *)
Lemma roomlist_order_and_frame_witness :
  (exists rl, parse_roomlist rooms_doc = Ret rl
              /\ map room_id (rooms rl) = [1; 2]
              /\ map room_name (rooms rl) = [Some "Sea view"; Some "Garden"])
  /\ attach_linked_rate
       [ {| room_id := 1; room_name := Some "Sea view"; linked_rate := None |} ]
       (Element "LinkedRate" None
          [leaf "RateId" "9"; leaf "RateDescription" "Saver"; leaf "RoomId" "5"])
     = Ret [ {| room_id := 1; room_name := Some "Sea view";
                linked_rate := None |} ].
Proof.
  destruct roomlist_order_and_frame as (Horder & _ & Habsent). split.
  - eexists. split; [vm_compute; reflexivity|].
    pose proof (Horder rooms_doc _ eq_refl) as H. split; reflexivity.
  - apply (Habsent _ _ {| rate_id := 9; rate_description := Some "Saver";
                         linked_room_id := 5 |}); [reflexivity..|].
    cbn. intros [H|[]]. discriminate H.
Defined.

(** C9 does not hold as stated: two room elements with one identifier give
    two rooms with that identifier. *)
Lemma twin_rooms_are_both_listed :
  exists rl, parse_roomlist twin_rooms_doc = Ret rl
             /\ map room_id (rooms rl) = [1; 1]
             /\ ~ NoDup (map room_id (rooms rl)).
Proof.
  eexists. split; [vm_compute; reflexivity|]. split; [reflexivity|].
  cbn. intros Hnodup. apply NoDup_cons in Hnodup as [Hnotin _].
  apply Hnotin. by left.
Qed.

(** C9, amended.  The returned list has one room per room element of the
    document, in document order, with the identifier read from the element;
    so no two entries share an identifier exactly when no two room elements
    of the document carry the same identifier. *)
Theorem roomlist_ids_follow_document (root : element) (rl : RoomList) :
  parse_roomlist root = Ret rl ->
  map room_type_id (findall "Room" root)
  = map (fun r => Ret (room_id r)) (rooms rl)
  /\ (NoDup (map room_id (rooms rl))
      <-> NoDup (map room_type_id (findall "Room" root))).
Proof.
  intros (rooms0 & Hrooms & Hpass)%parse_roomlist_Ret.
  apply traverse_Ret in Hrooms. apply linked_rate_pass_frame in Hpass.
  assert (Hids : map room_type_id (findall "Room" root)
                 = map (fun r => Ret (room_id r)) (rooms rl)).
  { revert Hpass. generalize (rooms rl) as final.
    induction Hrooms as [|e r0 es rs Hr Hrs IH]; intros final Hpass;
      inversion Hpass as [|? r ? final' Hslot Hrest]; subst; [done|].
    cbn. f_equal; [|by apply IH].
    apply parse_room_Ret in Hr as (-> & _). destruct Hslot as (-> & _). done. }
  split; [done|]. rewrite Hids.
  rewrite <- (map_map room_id (fun n : Z => @Ret Z n)).
  change (map (fun n : Z => Ret n) (map room_id (rooms rl)))
    with ((fun n : Z => Ret n) <$> map room_id (rooms rl)).
  assert (Hinj : Inj eq eq (fun n : Z => @Ret Z n)) by (by intros ? ? [=]).
  symmetry. apply (NoDup_fmap _).
Qed.

(** The room elements of [rooms_doc] carry two different identifiers. *)
Lemma roomlist_ids_follow_document_witness :
  NoDup (map room_type_id (findall "Room" rooms_doc)).
Proof.
  destruct (roomlist_ids_follow_document rooms_doc _ eq_refl) as [_ Hiff].
  apply Hiff. cbn.
  apply NoDup_cons. split; [|apply NoDup_singleton].
  by intros [=]%list_elem_of_singleton.
Defined.
(** ** Sorting by date *)

Section sort_by_facts.
Context {A : Type} (key : A -> date).

Lemma insert_by_Permutation (x : A) (l : list A) :
  Permutation (insert_by key x l) (x :: l).
Proof.
  induction l as [|y l IH]; cbn; [done|].
  destruct (date_leb (key x) (key y)); [done|].
  rewrite IH. apply perm_swap.
Qed.

Lemma sort_by_Permutation (l : list A) : Permutation (sort_by key l) l.
Proof.
  induction l as [|x l IH]; cbn; [done|].
  rewrite insert_by_Permutation. by constructor.
Qed.

Lemma insert_by_sorted (x : A) (l : list A) :
  StronglySorted (key_le key) l -> StronglySorted (key_le key) (insert_by key x l).
Proof.
  induction 1 as [|y l Hl IH Hy]; cbn.
  - repeat constructor.
  - destruct (date_leb (key x) (key y)) eqn:Hxy.
    + constructor; [by constructor|]. constructor; [done|].
      eapply Forall_impl; [exact Hy|]. cbn. intros z Hz.
      unfold key_le, date_le in *. eauto using date_leb_trans.
    + constructor; [done|].
      rewrite (insert_by_Permutation x l). constructor; [|done].
      by apply date_leb_total.
Qed.

Lemma sort_by_sorted (l : list A) : StronglySorted (key_le key) (sort_by key l).
Proof.
  induction l as [|x l IH]; cbn; [constructor|]. by apply insert_by_sorted.
Qed.

(** Stability: the entries with a given key come out in the order they went
    in. *)
Lemma insert_by_filter (d : date) (x : A) (l : list A) :
  filter (fun a => key a = d) (insert_by key x l)
  = filter (fun a => key a = d) (x :: l).
Proof.
  induction l as [|y l IH]; cbn [insert_by]; [done|].
  destruct (date_leb (key x) (key y)) eqn:Hxy; [done|].
  rewrite (filter_cons _ y), IH, !(filter_cons _ x), (filter_cons _ y).
  destruct (decide (key y = d)) as [Hy|Hy], (decide (key x = d)) as [Hx|Hx];
    try done.
  rewrite Hx, Hy, date_leb_refl in Hxy. done.
Qed.

Lemma sort_by_stable (d : date) (l : list A) :
  filter (fun a => key a = d) (sort_by key l) = filter (fun a => key a = d) l.
Proof.
  induction l as [|x l IH]; cbn [sort_by fold_right]; [done|].
  fold (sort_by key l). by rewrite insert_by_filter, !filter_cons, IH.
Qed.
End sort_by_facts.

(** A sorted arrangement is unique as soon as the order tells the elements
    apart. *)
Lemma StronglySorted_Permutation_eq {A} (R : A -> A -> Prop) (l l' : list A) :
  (forall x, R x x) ->
  (forall x y, In x l -> In y l -> R x y -> R y x -> x = y) ->
  StronglySorted R l -> StronglySorted R l' -> Permutation l l' -> l = l'.
Proof.
  intros Hrefl. revert l'.
  induction l as [|x l IH]; intros l' Hanti Hl Hl' Hperm.
  - by apply Permutation_nil in Hperm.
  - destruct l' as [|x' l'].
    { symmetry in Hperm. by apply Permutation_nil_cons in Hperm. }
    apply StronglySorted_inv in Hl as [Hl Hx].
    apply StronglySorted_inv in Hl' as [Hl' Hx'].
    assert (Hin' : In x' (x :: l)).
    { eapply Permutation_in; [symmetry; exact Hperm|apply in_eq]. }
    assert (Hin : In x (x' :: l')).
    { eapply Permutation_in; [exact Hperm|apply in_eq]. }
    assert (x = x') as <-.
    { apply Hanti; [apply in_eq|done| |].
      - destruct Hin' as [<-|Hin']; [done|].
        rewrite Forall_forall in Hx. by apply Hx, list_elem_of_In.
      - destruct Hin as [<-|Hin]; [done|].
        rewrite Forall_forall in Hx'. by apply Hx', list_elem_of_In. }
    f_equal. apply IH; try done.
    + intros; apply Hanti; auto using in_cons.
    + by apply Permutation_cons_inv in Hperm.
Qed.

Lemma NoDup_map_eq {A B} (f : A -> B) (l : list A) (x y : A) :
  NoDup (map f l) -> In x l -> In y l -> f x = f y -> x = y.
Proof.
  induction l as [|z l IH]; cbn; [done|].
  intros [Hz Hl]%NoDup_cons [<-|Hx] [<-|Hy] Heq; try done.
  - exfalso. apply Hz. rewrite Heq. by apply list_elem_of_In, in_map.
  - exfalso. apply Hz. rewrite <- Heq. by apply list_elem_of_In, in_map.
  - by apply IH.
Qed.

Lemma traverse_Permutation {A B} (f : A -> outcome B) (xs xs' : list A)
    (ys : list B) :
  Permutation xs xs' -> traverse f xs = Ret ys ->
  exists ys', traverse f xs' = Ret ys' /\ Permutation ys ys'.
Proof.
  intros Hperm Hys%traverse_Ret.
  destruct (Permutation_Forall2 Hperm Hys) as (ys' & Hperm' & Hys').
  exists ys'. split; [by apply traverse_Ret|done].
Qed.
(** ** Availability *)

Lemma StronglySorted_map {A B} (f : A -> B) (R : B -> B -> Prop) (l : list A) :
  StronglySorted (fun a b => R (f a) (f b)) l -> StronglySorted R (map f l).
Proof.
  induction 1 as [|x l Hl IH Hx]; cbn; constructor; [done|].
  by apply List.Forall_map.
Qed.

Lemma parse_availability_Ret (root : element) (l : list Availability) :
  parse_availability root = Ret l ->
  exists entries,
    traverse parse_dateset (findall "DateSet" root) = Ret entries
    /\ l = sort_by dtm entries.
Proof.
  unfold parse_availability.
  destruct (traverse parse_dateset _) as [entries|e]; cbn; [|done].
  intros [= <-]. by exists entries.
Qed.

Lemma parse_dateset_Ret (ds : element) (a : Availability) :
  parse_dateset ds = Ret a ->
  exists available literal date_text,
    text_of (find "InventoryAvailable" ds) = Ret available
    /\ text_of (find "LiteralInventory" ds) = Ret literal
    /\ text_of (find "Date" ds) = Ret date_text
    /\ strptime_dmy_text date_text = Ret (dtm a)
    /\ int_py (py_of_text available) = Ret (inventory_available a)
    /\ int_py (py_of_text literal) = Ret (literal_inventory a).
Proof.
  unfold parse_dateset.
  destruct (text_of (find "InventoryAvailable" ds)) as [av|e]; cbn [obind]; [|done].
  destruct (text_of (find "LiteralInventory" ds)) as [li|e]; cbn [obind]; [|done].
  destruct (text_of (find "Date" ds)) as [dt|e]; cbn [obind]; [|done].
  destruct (strptime_dmy_text dt) as [d|e] eqn:Hd; cbn [obind]; [|done].
  destruct (int_py (py_of_text av)) as [n|e] eqn:Hn; cbn [obind]; [|done].
  destruct (int_py (py_of_text li)) as [m|e] eqn:Hm; cbn [obind]; [|done].
  intros [= <-]. by exists av, li, dt.
Qed.

(** C3 does not hold as stated: the two documents below hold the same two
    entries in the two possible orders, and the results differ, because
    entries with one date keep the order of the document. *)
Lemma same_day_entries_keep_document_order :
  Permutation (findall "DateSet" same_day_doc)
    (findall "DateSet" same_day_doc_swapped)
  /\ parse_availability same_day_doc
     = Ret [ {| inventory_available := 1; literal_inventory := 1;
                dtm := Date 2030 3 1 |};
             {| inventory_available := 2; literal_inventory := 2;
                dtm := Date 2030 3 1 |} ]
  /\ parse_availability same_day_doc_swapped
     = Ret [ {| inventory_available := 2; literal_inventory := 2;
                dtm := Date 2030 3 1 |};
             {| inventory_available := 1; literal_inventory := 1;
                dtm := Date 2030 3 1 |} ]
  /\ parse_availability same_day_doc
     <> parse_availability same_day_doc_swapped.
Proof.
  split_and!.
  - apply perm_swap.
  - vm_compute. reflexivity.
  - vm_compute. reflexivity.
  - vm_compute. discriminate.
Qed.

(** C3, amended.  The sequence returned for a response document is sorted
    non-decreasing by date whatever the order of the date entries in the
    document; it holds the entries of the document, and entries with one date
    keep their document order.  Under a permutation of the entries the parse
    still returns, the dates of the result are the same sequence, and the
    result itself is the same sequence when no two entries carry the same
    date. *)
Theorem availability_sorted_by_date (root : element) (l : list Availability) :
  parse_availability root = Ret l ->
  StronglySorted (key_le dtm) l
  /\ (exists entries,
        traverse parse_dateset (findall "DateSet" root) = Ret entries
        /\ Permutation l entries
        /\ forall d, filter (fun a => dtm a = d) l
                     = filter (fun a => dtm a = d) entries)
  /\ (forall root',
        Permutation (findall "DateSet" root) (findall "DateSet" root') ->
        exists l',
          parse_availability root' = Ret l'
          /\ map dtm l' = map dtm l
          /\ Permutation l' l
          /\ (NoDup (map dtm l) -> l' = l)).
Proof.
  intros (entries & Hentries & ->)%parse_availability_Ret. split_and!.
  - apply sort_by_sorted.
  - exists entries. split_and!; [done|apply sort_by_Permutation|].
    intros d. apply sort_by_stable.
  - intros root' Hperm.
    destruct (traverse_Permutation _ _ _ _ Hperm Hentries)
      as (entries' & Hentries' & Hperm').
    exists (sort_by dtm entries').
    assert (Hsorted : Permutation (sort_by dtm entries') (sort_by dtm entries)).
    { by rewrite !sort_by_Permutation. }
    split_and!.
    + unfold parse_availability. by rewrite Hentries'.
    + apply (StronglySorted_Permutation_eq date_le).
      * intros x. apply date_leb_refl.
      * intros x y _ _. apply date_leb_antisym.
      * apply StronglySorted_map, sort_by_sorted.
      * apply StronglySorted_map, sort_by_sorted.
      * by apply Permutation_map.
    + done.
    + intros Hnodup. symmetry.
      apply (StronglySorted_Permutation_eq (key_le dtm)).
      * intros x. apply date_leb_refl.
      * intros x y Hx Hy Hxy Hyx.
        apply (NoDup_map_eq dtm (sort_by dtm entries)); try done.
        by apply date_leb_antisym.
      * apply sort_by_sorted.
      * apply sort_by_sorted.
      * done.
Qed.

(** The dates 2024-03-05, 2024-03-01, 2024-03-03 come out as 2024-03-01,
    2024-03-03, 2024-03-05. *)
Lemma availability_sorted_by_date_witness :
  exists l,
    parse_availability three_dates_doc = Ret l
    /\ map dtm l = [Date 2024 3 1; Date 2024 3 3; Date 2024 3 5]
    /\ StronglySorted (key_le dtm) l.
Proof.
  eexists. split; [vm_compute; reflexivity|]. split; [reflexivity|].
  apply (availability_sorted_by_date three_dates_doc). reflexivity.
Defined.

(** The loop of the availability parse has no check of the sign: with a
    constructor that stores what it is given, a count written with a minus
    sign reaches the record.  Whether a count can be negative is decided by
    the constructor alone. *)
Lemma negative_count_is_stored :
  exists a, parse_availability negative_count_doc = Ret [a]
            /\ inventory_available a < 0.
Proof. eexists. split; [vm_compute; reflexivity|]. cbn. lia. Qed.

Lemma parse_dateset_stored (ds : element) :
  parse_dateset ds = parse_dateset_with stored_Availability ds.
Proof. reflexivity. Qed.






(** ** Bookings *)

(** The run of [get_bookings] once the arguments are accepted and the service
    has answered with a document and a status that is no error. *)
Lemma get_bookings_answered (w : world) (self : DimsInventoryClient)
    (resort_id : pyval) (start_date end_date hdr : string) (st : effects)
    (r : Z) (s e : date) (status : Z) (root : element) :
  int_py resort_id = Ret r ->
  strptime_ymd start_date = Ret s -> strptime_ymd end_date = Ret e ->
  server w (build_request self "POST"
              (bookings_body r (isoformat s) (isoformat e)) hdr "inventory")
  = Answer status (Some root) ->
  raise_for_status status = Ret tt ->
  get_bookings w self resort_id start_date end_date hdr st
  = (parse_bookings root,
     {| sent := sent st ++
          [build_request self "POST"
             (bookings_body r (isoformat s) (isoformat e)) hdr "inventory"];
        clock_reads := clock_reads st |}).
Proof.
  intros Hr Hs He Hanswer Hstatus.
  unfold get_bookings. rewrite Hr, Hs, He.
  cbn [obind except_ValueError fst snd].
  unfold bind at 1 2. cbn [lift fst snd].
  unfold bind at 1. unfold make_request, bind at 1 2, requests_request.
  rewrite Hanswer. cbn [fst snd lift]. rewrite Hstatus.
  unfold ret. unfold bind. by cbn.
Qed.

(** C4 does not hold as stated: with the error marker and no Message element
    in the response, the operation raises. *)
Lemma error_marker_without_message_raises :
  text_of (find_below "MessageType" error_only_doc) = Ret (Some "Error")
  /\ find_below "Message" error_only_doc = None
  /\ fst (get_bookings (steady_world (Date 2030 1 1) error_only_doc)
            sample_client (PyInt 12) "2030-01-01" "2030-01-02"
            GetBookingsListWithRoomRateIds fresh)
     = Raise AttributeError.
Proof. split_and!; vm_compute; reflexivity. Qed.

(** C4, amended.  For every bookings response that has a Message element and
    whose MessageType text is the marker Error, get_bookings returns the
    empty list and raises nothing, whatever the Message element and the rest
    of the document hold. *)
Theorem bookings_error_marker_gives_empty_list (w : world)
    (self : DimsInventoryClient) (resort_id : pyval)
    (start_date end_date hdr : string) (st : effects)
    (r : Z) (s e : date) (status : Z) (root indicator message : element) :
  int_py resort_id = Ret r ->
  strptime_ymd start_date = Ret s -> strptime_ymd end_date = Ret e ->
  server w (build_request self "POST"
              (bookings_body r (isoformat s) (isoformat e)) hdr "inventory")
  = Answer status (Some root) ->
  raise_for_status status = Ret tt ->
  find_below "MessageType" root = Some indicator ->
  text indicator = Some "Error" ->
  find_below "Message" root = Some message ->
  fst (get_bookings w self resort_id start_date end_date hdr st)
  = Ret (Some []).
Proof.
  intros Hr Hs He Hanswer Hstatus Hind Htext Hmsg.
  rewrite (get_bookings_answered w self _ _ _ hdr st r s e status root) by done.
  cbn [fst]. unfold parse_bookings. rewrite Hind, Hmsg. cbn. by rewrite Htext.
Qed.

(** The error marker with a message gives the empty list. *)
Lemma bookings_error_marker_gives_empty_list_witness :
  fst (get_bookings (steady_world (Date 2030 1 1) error_doc) sample_client
         (PyInt 12) "2030-01-01" "2030-01-02" GetBookingsListWithRoomRateIds
         fresh)
  = Ret (Some []).
Proof.
  apply (bookings_error_marker_gives_empty_list _ _ _ _ _ _ _ 12
           (Date 2030 1 1) (Date 2030 1 2) 200 error_doc
           (leaf "MessageType" "Error") (leaf "Message" "Resort not found"));
    reflexivity.
Defined.

(** C5 does not hold as stated: with an indicator other than Error and no
    Message element in the response, the operation raises. *)
Lemma other_marker_without_message_raises :
  text_of (find_below "MessageType" success_only_doc) = Ret (Some "Success")
  /\ find_below "Message" success_only_doc = None
  /\ fst (get_bookings (steady_world (Date 2030 1 1) success_only_doc)
            sample_client (PyInt 12) "2030-01-01" "2030-01-02"
            GetBookingsListWithRoomRateIds fresh)
     = Raise AttributeError.
Proof. split_and!; vm_compute; reflexivity. Qed.

(** C5, amended.  For every bookings response that has a MessageType element
    and a Message element and whose MessageType text is not the marker Error,
    get_bookings returns None: the body ends after the test of the marker, so
    no booking entry is read and no collection is returned. *)
Theorem bookings_without_error_marker_gives_None (w : world)
    (self : DimsInventoryClient) (resort_id : pyval)
    (start_date end_date hdr : string) (st : effects)
    (r : Z) (s e : date) (status : Z) (root indicator message : element) :
  int_py resort_id = Ret r ->
  strptime_ymd start_date = Ret s -> strptime_ymd end_date = Ret e ->
  server w (build_request self "POST"
              (bookings_body r (isoformat s) (isoformat e)) hdr "inventory")
  = Answer status (Some root) ->
  raise_for_status status = Ret tt ->
  find_below "MessageType" root = Some indicator ->
  text indicator <> Some "Error" ->
  find_below "Message" root = Some message ->
  fst (get_bookings w self resort_id start_date end_date hdr st) = Ret None.
Proof.
  intros Hr Hs He Hanswer Hstatus Hind Htext Hmsg.
  rewrite (get_bookings_answered w self _ _ _ hdr st r s e status root) by done.
  cbn [fst]. unfold parse_bookings. rewrite Hind, Hmsg. cbn.
  by rewrite bool_decide_eq_false_2.
Qed.

(** A success marker with a message and two booking entries gives [None]. *)
Lemma bookings_without_error_marker_gives_None_witness :
  fst (get_bookings (steady_world (Date 2030 1 1) success_doc) sample_client
         (PyInt 12) "2030-01-01" "2030-01-02" GetBookingsListWithRoomRateIds
         fresh)
  = Ret None.
Proof.
  apply (bookings_without_error_marker_gives_None _ _ _ _ _ _ _ 12
           (Date 2030 1 1) (Date 2030 1 2) 200 success_doc
           (leaf "MessageType" "Success") (leaf "Message" "2 bookings"));
    try reflexivity.
  discriminate.
Defined.

(** ** Construction of the client *)

Lemma truthy_spec (v : option string) :
  truthy v = false <-> v = None \/ v = Some EmptyString.
Proof. destruct v as [[|c s]|]; cbn; intuition discriminate. Qed.

(** C7.  The constructor raises its configuration error exactly when one of
    the three variables is missing from the environment or is the empty
    string; when the three are set and not empty it returns a client that
    holds them, as for the username u, the password p and the token t. *)
Theorem client_construction :
  (forall environ : gmap string string,
     ((exists k, In k ["IGNITE_USERNAME"; "IGNITE_PASSWORD"; "IGNITE_TOKEN"]
                 /\ (environ !! k = None \/ environ !! k = Some EmptyString))
      <-> init environ
          = Raise (ValueError
              "Username, password and token must be set in the environment variables."))
     /\ (forall u p t,
           environ !! "IGNITE_USERNAME" = Some u -> u <> EmptyString ->
           environ !! "IGNITE_PASSWORD" = Some p -> p <> EmptyString ->
           environ !! "IGNITE_TOKEN" = Some t -> t <> EmptyString ->
           init environ
           = Ret {| username := Some u; password := Some p;
                    token := Some t |}))
  /\ init sample_environ = Ret sample_client.
Proof.
  split; [|by vm_compute].
  intros environ. unfold init. cbn [username password token forallb].
  split.
  - destruct (truthy (environ !! "IGNITE_USERNAME")) eqn:Hu;
      [destruct (truthy (environ !! "IGNITE_PASSWORD")) eqn:Hp;
       [destruct (truthy (environ !! "IGNITE_TOKEN")) eqn:Ht|]|];
      cbn [andb negb].
    + split; [|done]. intros (k & [<-|[<-|[<-|[]]]] & Hk%truthy_spec);
        congruence.
    + split; [done|]. intros _. exists "IGNITE_TOKEN".
      split; [cbn; auto|by apply truthy_spec].
    + split; [done|]. intros _. exists "IGNITE_PASSWORD".
      split; [cbn; auto|by apply truthy_spec].
    + split; [done|]. intros _. exists "IGNITE_USERNAME".
      split; [cbn; auto|by apply truthy_spec].
  - intros [|c cs] [|d ds] [|e es] -> ? -> ? -> ?; done.
Qed.
(** ** The inventory update *)

Lemma append_assoc (a b c : string) : (a +:+ b) +:+ c = a +:+ (b +:+ c).
Proof.
  induction a as [|x a IH]; [done|].
  change (String x ((a +:+ b) +:+ c) = String x (a +:+ (b +:+ c))).
  by f_equal.
Qed.

Lemma update_body_Date (room_id resort_id : Z) (date : string) (qty : Z) :
  update_body room_id resort_id date qty
  = update_body_head room_id resort_id
    +:+ "<Date>" +:+ date +:+ "</Date>" +:+ update_body_tail qty.
Proof.
  unfold update_body, update_body_head, update_body_tail.
  rewrite !append_assoc. reflexivity.
Qed.

Lemma digit_char_spec (k : nat) (n : Z) :
  is_digit (digit_char k n) = true
  /\ digit_val (digit_char k n) = (n / 10 ^ Z.of_nat k) mod 10.
Proof.
  unfold digit_char. set (x := (n / 10 ^ Z.of_nat k) mod 10).
  assert (Hx : 0 <= x < 10) by (apply Z.mod_pos_bound; lia).
  assert (Hcode : code (ascii_of_nat (Z.to_nat (48 + x))) = 48 + x).
  { unfold code. rewrite nat_ascii_embedding by lia. lia. }
  unfold is_digit, in_range, digit_val. rewrite Hcode.
  change (code "0") with 48. change (code "9") with 57. lia.
Qed.

Lemma isoformat_spells_date (d : date) :
  0 <= year d <= 9999 -> 0 <= month d <= 99 -> 0 <= day d <= 99 ->
  spells_date (isoformat d) d.
Proof.
  intros Hy Hm Hd. unfold spells_date, isoformat.
  eexists _, _, _, _, _, _, _, _.
  split; [apply list_ascii_of_string_of_list_ascii|].
  cbn [forallb].
  destruct (digit_char_spec 3 (year d)) as [-> ->],
    (digit_char_spec 2 (year d)) as [-> ->],
    (digit_char_spec 1 (year d)) as [-> ->],
    (digit_char_spec 0 (year d)) as [-> ->],
    (digit_char_spec 1 (month d)) as [-> ->],
    (digit_char_spec 0 (month d)) as [-> ->],
    (digit_char_spec 1 (day d)) as [-> ->],
    (digit_char_spec 0 (day d)) as [-> ->].
  change (10 ^ Z.of_nat 3) with 1000. change (10 ^ Z.of_nat 2) with 100.
  change (10 ^ Z.of_nat 1) with 10. change (10 ^ Z.of_nat 0) with 1.
  split; [done|]. split_and!; Z.div_mod_to_equations; lia.
Qed.

Lemma date_new_valid (y m d : Z) (x : date) :
  date_new y m d = Ret x ->
  x = Date y m d /\ 1 <= y <= 9999 /\ 1 <= m <= 12
  /\ 1 <= d <= days_in_month y m.
Proof.
  unfold date_new.
  destruct ((1 <=? y) && (y <=? 9999)) eqn:Hy; [|done].
  destruct ((1 <=? m) && (m <=? 12)) eqn:Hm; [|done].
  destruct ((1 <=? d) && (d <=? days_in_month y m)) eqn:Hd; [|done].
  intros [= <-].
  rewrite andb_true_iff, !Z.leb_le in Hy, Hm, Hd. split; [done|]. lia.
Qed.

Lemma days_in_month_le (y m : Z) : days_in_month y m <= 31.
Proof.
  unfold days_in_month.
  repeat match goal with |- context [if ?b then _ else _] => destruct b end;
    lia.
Qed.

Lemma strptime_with_valid (re : lexer (Z * Z * Z)) (s : string) (d : date) :
  strptime_with re s = Ret d ->
  1 <= year d <= 9999 /\ 1 <= month d <= 12
  /\ 1 <= day d <= days_in_month (year d) (month d).
Proof.
  unfold strptime_with.
  destruct (re (list_ascii_of_string s)) as [|[[[y m] dd] [|c rest]] tl];
    [done| |done].
  intros (-> & Hy & Hm & Hd)%date_new_valid. done.
Qed.

Lemma is_digit_not_dash (c : ascii) (rest : list ascii) :
  is_digit c = true -> dash (c :: rest) = [].
Proof.
  intros Hc. unfold dash.
  destruct (Ascii.eqb_spec c "-") as [->|]; [|done].
  by vm_compute in Hc.
Qed.

(** A text whose second and third characters are digits is no match for
    [%d-%m-%Y]: the day is one or two characters and a dash follows it. *)
Lemma re_dmy_second_third_digit (a b c : ascii) (rest : list ascii) :
  is_digit b = true -> is_digit c = true -> re_dmy (a :: b :: c :: rest) = [].
Proof.
  intros Hb Hc. unfold re_dmy, lex_bind at 1, re_d.
  rewrite !flat_map_app.
  pose proof (is_digit_not_dash b (c :: rest) Hb) as Hdb.
  pose proof (is_digit_not_dash c rest Hc) as Hdc.
  assert (Htwo : forall p p', flat_map
            (fun '(d, r) => lex_bind dash (fun _ => lex_bind re_m (fun m =>
               lex_bind dash (fun _ => lex_bind re_Y (fun y =>
               lex_ret (y, m, d))))) r)
            (two_chars p p' (a :: b :: c :: rest)) = []).
  { intros p p'. unfold two_chars. destruct (p a && p' b); [|done].
    cbn [flat_map]. unfold lex_bind at 1. by rewrite Hdc. }
  rewrite !Htwo. cbn [app].
  unfold one_char at 1. unfold after_space, one_char.
  destruct (in_range "1" "9" a); cbn [flat_map app].
  - unfold lex_bind at 1. rewrite Hdb. cbn [flat_map app].
    destruct (Ascii.eqb a " "); [|done].
    destruct (in_range "1" "9" b); [|done].
    cbn [flat_map]. unfold lex_bind at 1. by rewrite Hdc.
  - destruct (Ascii.eqb a " "); [|done].
    destruct (in_range "1" "9" b); [|done].
    cbn [flat_map]. unfold lex_bind at 1. by rewrite Hdc.
Qed.

Lemma strptime_dmy_not_iso (s : string) (d d' : date) :
  strptime_dmy s = Ret d -> s <> isoformat d'.
Proof.
  intros Hs ->. revert Hs. unfold strptime_dmy, strptime_with, isoformat.
  rewrite list_ascii_of_string_of_list_ascii.
  rewrite re_dmy_second_third_digit; [done| |]; apply digit_char_spec.
Qed.

(** C10.  For every call of update_availability that passes validation, the
    one request sent carries, between the tags of the Date element of its
    body, the ISO form YYYY-MM-DD of the parsed date, and that text differs
    from the DD-MM-YYYY text the caller supplied. *)
Theorem update_availability_sends_iso_date (w : world)
    (self : DimsInventoryClient) (room_id resort_id qty : pyval)
    (date_text hdr : string) (st : effects) (r s n : Z) (d : date) :
  int_py room_id = Ret r -> int_py resort_id = Ret s -> int_py qty = Ret n ->
  strptime_dmy date_text = Ret d ->
  sent (snd (update_availability w self room_id resort_id date_text qty hdr st))
  = sent st ++
    [build_request self "POST"
       (update_body_head r s +:+ "<Date>" +:+ isoformat d +:+ "</Date>"
        +:+ update_body_tail n) hdr "inventory"]
  /\ spells_date (isoformat d) d
  /\ isoformat d <> date_text.
Proof.
  intros Hr Hs Hn Hd. split_and!.
  - unfold update_availability. rewrite Hr, Hs, Hn, Hd.
    cbn [obind except_ValueError]. unfold bind at 1 2. cbn [lift].
    rewrite <- update_body_Date.
    rewrite <- bind_bind, <- bind_bind.
    assert (Hret : forall (o : M (option string)) st0,
              snd (bind o ret st0) = snd (o st0)).
    { intros o st0. unfold bind, ret. by destruct (o st0) as [[x|e] st1]. }
    rewrite Hret, bind_lift_effects, bind_lift_effects.
    by rewrite make_request_sends_one.
  - apply strptime_with_valid in Hd as (Hy & Hm & Hday).
    pose proof (days_in_month_le (year d) (month d)).
    apply isoformat_spells_date; lia.
  - intros Heq. symmetry in Heq. by eapply strptime_dmy_not_iso.
Qed.

(** The call for 05-01-2030 sends 2030-01-05. *)
Lemma update_availability_sends_iso_date_witness :
  exists req,
    sent (snd (update_availability (steady_world (Date 2030 1 1) empty_doc)
                 sample_client (PyInt 3) (PyStr "12") "05-01-2030" (PyInt 4)
                 UpdateInventory fresh)) = [req]
    /\ req_data req
       = format_soap_envelope sample_client
           (update_body_head 3 12 +:+ "<Date>2030-01-05</Date>"
            +:+ update_body_tail 4).
Proof.
  destruct (update_availability_sends_iso_date
              (steady_world (Date 2030 1 1) empty_doc) sample_client
              (PyInt 3) (PyStr "12") (PyInt 4) "05-01-2030" UpdateInventory
              fresh 3 12 4 (Date 2030 1 5) eq_refl eq_refl eq_refl eq_refl)
    as (Hsent & _ & _).
  eexists. split; [exact Hsent|reflexivity].
Defined.

(** * Further properties of the operations *)

(** ** The exchange with the service *)

(** The tail every operation ends with: send the body, require a good status,
    build the tree of the answer and walk it. *)
Definition exchange {A} (w : world) (self : DimsInventoryClient)
    (payload action_header : string) (walk : element -> outcome A) : M A :=
  bind (make_request w self "POST" payload action_header "inventory")
    (fun response => bind (lift (ET_fromstring response))
       (fun root => lift (walk root))).

(** The trace after one more request. *)
Definition after_request (st : effects) (r : request) : effects :=
  {| sent := sent st ++ [r]; clock_reads := clock_reads st |}.

(** The status is one [raise_for_status] lets through. *)
Definition good_status (status : Z) : Prop := status < 400 \/ 600 <= status.

Lemma raise_for_status_spec (status : Z) :
  (good_status status /\ raise_for_status status = Ret tt)
  \/ (400 <= status < 600 /\ raise_for_status status = Raise HTTPError).
Proof.
  unfold raise_for_status, good_status.
  destruct (Z.leb_spec 400 status), (Z.ltb_spec status 600); cbn;
    first [left; split; [lia|done] | right; split; [lia|done]].
Qed.

(** X1.  make_request sends exactly one request, whatever comes back, to the
    inventory address when the service type is the text inventory and to the
    rates address for any other text.  It raises ConnectionError when there is
    no answer, HTTPError when the status is between 400 and 599, and returns
    the text of the answer for every other status. *)
Theorem make_request_outcome (w : world) (self : DimsInventoryClient)
    (method payload hdr svc : string) (st : effects) :
  let req := build_request self method payload hdr svc in
  let run := make_request w self method payload hdr svc st in
  snd run = after_request st req
  /\ req_url req = (if decide (svc = "inventory") then _INVENTORY_SERVICE_URL_
                    else _RATES_SERVICE_URL_)
  /\ (server w req = NoAnswer -> fst run = Raise ConnectionError)
  /\ (forall status body, server w req = Answer status body ->
        (400 <= status < 600 -> fst run = Raise HTTPError)
        /\ (good_status status -> fst run = Ret body)).
Proof.
  intros req run. split_and!.
  - apply make_request_sends_one.
  - cbn. destruct (String.eqb_spec svc "inventory"), (decide _); done.
  - intros Hno. subst run req. unfold make_request, bind, requests_request.
    by rewrite Hno.
  - intros status body Hanswer. subst run req.
    unfold make_request, bind, requests_request. rewrite Hanswer. cbn.
    destruct (raise_for_status_spec status) as [[Hgood ->]|[Hbad ->]];
      unfold good_status in *; cbn; split; intros; first [done|lia].
Qed.

Lemma exchange_cases {A} (w : world) (self : DimsInventoryClient)
    (payload hdr : string) (walk : element -> outcome A) (st : effects) :
  let req := build_request self "POST" payload hdr "inventory" in
  exchange w self payload hdr walk st
  = (match server w req with
     | NoAnswer => Raise ConnectionError
     | Answer status body =>
         if (400 <=? status) && (status <? 600) then Raise HTTPError
         else match body with
              | Some root => walk root
              | None => Raise ParseError
              end
     end, after_request st req).
Proof.
  intros req. subst req.
  unfold exchange, make_request, bind, requests_request, lift, ret.
  destruct (server w _) as [|status body]; [done|]. cbn.
  unfold raise_for_status.
  destruct ((400 <=? status) && (status <? 600)); [done|].
  by destruct body.
Qed.

(** ** The shape of a run *)

(** A run either stops in validation, with an exception and nothing sent, or
    goes on to the exchange with a body and a way to walk the answer. *)
Definition rejected_or_exchanged {A} (w : world) (self : DimsInventoryClient)
    (hdr : string) (walk : element -> outcome A) (st : effects)
    (run : outcome A * effects) : Prop :=
  (exists e st', run = (Raise e, st') /\ sent st' = sent st)
  \/ (exists payload st',
        run = exchange w self payload hdr walk st' /\ sent st' = sent st).

Lemma bind_ret_r {A} (m : M A) (st : effects) : bind m ret st = m st.
Proof. unfold bind, ret. by destruct (m st) as [[a|e] st']. Qed.

Lemma get_roomlist_run (w : world) (self : DimsInventoryClient)
    (resort_id : pyval) (hdr : string) (st : effects) :
  get_roomlist w self resort_id hdr st
  = match except_ValueError (int_py resort_id) "Resort ID must be an integer"
    with
    | Ret r => exchange w self (roomlist_body r) hdr parse_roomlist st
    | Raise e => (Raise e, st)
    end.
Proof.
  unfold get_roomlist, exchange.
  by destruct (except_ValueError _ _) as [r|e].
Qed.

Lemma update_availability_run (w : world) (self : DimsInventoryClient)
    (room_id resort_id qty : pyval) (date_text hdr : string) (st : effects) :
  update_availability w self room_id resort_id date_text qty hdr st
  = match except_ValueError
            (obind (int_py room_id) (fun room_id =>
             obind (int_py resort_id) (fun resort_id =>
             obind (int_py qty) (fun qty => Ret (room_id, resort_id, qty)))))
            "Room ID, Resort ID and Quantity must be integers"
    with
    | Raise e => (Raise e, st)
    | Ret (r, s, n) =>
        match except_ValueError (strptime_dmy date_text) "Invalid date format"
        with
        | Raise e => (Raise e, st)
        | Ret d =>
            exchange w self (update_body r s (isoformat d) n) hdr
              (fun root => text_of (find_below "Message" root)) st
        end
    end.
Proof.
  unfold update_availability, exchange.
  destruct (except_ValueError (obind (int_py room_id) _) _) as [[[r s] n]|e];
    [|done].
  unfold bind at 1. cbn [lift].
  destruct (except_ValueError (strptime_dmy date_text) _) as [d|e]; [|done].
  unfold bind at 1. cbn [lift].
  unfold bind. destruct (make_request _ _ _ _ _ _ st) as [[[root|]|e] st'];
    cbn; try done.
  by destruct (text_of _).
Qed.

Lemma get_bookings_run (w : world) (self : DimsInventoryClient)
    (resort_id : pyval) (start_date end_date hdr : string) (st : effects) :
  get_bookings w self resort_id start_date end_date hdr st
  = match except_ValueError (int_py resort_id) "Resort ID must be an integer"
    with
    | Raise e => (Raise e, st)
    | Ret r =>
        match except_ValueError
                (obind (strptime_ymd start_date) (fun s =>
                 obind (strptime_ymd end_date) (fun e => Ret (s, e))))
                "Invalid date format"
        with
        | Raise e => (Raise e, st)
        | Ret (s, e) =>
            exchange w self (bookings_body r (isoformat s) (isoformat e)) hdr
              parse_bookings st
        end
    end.
Proof.
  unfold get_bookings, exchange.
  destruct (except_ValueError (int_py resort_id) _) as [r|e]; [|done].
  unfold bind at 1. cbn [lift].
  by destruct (except_ValueError (obind _ _) _) as [[s e]|e].
Qed.

Lemma retrieve_availability_run (w : world) (self : DimsInventoryClient)
    (room_id resort_id : pyval) (start_date end_date hdr : string)
    (st : effects) :
  (exists e st',
     retrieve_availability w self room_id resort_id start_date end_date hdr st
     = (Raise e, st')
     /\ sent st' = sent st
     /\ (clock_reads st <= clock_reads st' <= clock_reads st + 2)%nat)
  \/ (exists r m s e,
        int_py resort_id = Ret r /\ int_py room_id = Ret m
        /\ strptime_ymd start_date = Ret s /\ strptime_ymd end_date = Ret e
        /\ date_le s e /\ date_le (clock w (clock_reads st)) s
        /\ date_le (clock w (S (clock_reads st))) e
        /\ retrieve_availability w self room_id resort_id start_date end_date
             hdr st
           = exchange w self
               (availability_body m r (strftime_ymd s) (strftime_ymd e)) hdr
               parse_availability
               {| sent := sent st; clock_reads := S (S (clock_reads st)) |}).
Proof.
  destruct (int_py resort_id) as [r|er] eqn:Hr; cycle 1.
  { left. exists (match er with ValueError _ =>
                    ValueError "Resort ID and Room ID must be integers"
                  | other => other end), st.
    unfold retrieve_availability. rewrite Hr.
    split; [by destruct er|split; [done|lia]]. }
  destruct (int_py room_id) as [m|em] eqn:Hm; cycle 1.
  { left. exists (match em with ValueError _ =>
                    ValueError "Resort ID and Room ID must be integers"
                  | other => other end), st.
    unfold retrieve_availability. rewrite Hr, Hm.
    split; [by destruct em|split; [done|lia]]. }
  destruct (strptime_ymd start_date) as [s|es] eqn:Hs; cycle 1.
  { left. exists (match es with ValueError _ => ValueError "Invalid date format"
                  | other => other end), st.
    unfold retrieve_availability. rewrite Hr, Hm, Hs.
    split; [by destruct es|split; [done|lia]]. }
  destruct (strptime_ymd end_date) as [e|ee] eqn:He; cycle 1.
  { left. exists (match ee with ValueError _ => ValueError "Invalid date format"
                  | other => other end), st.
    unfold retrieve_availability. rewrite Hr, Hm, Hs, He.
    split; [by destruct ee|split; [done|lia]]. }
  rewrite (retrieve_availability_parsed w self _ _ _ _ hdr st r m s e)
    by done.
  destruct (date_ltb e s) eqn:Hes.
  { left. eexists _, _. split; [done|split; [done|lia]]. }
  destruct (date_ltb s (clock w (clock_reads st))) eqn:Hnow1.
  { left. eexists _, _. split; [done|split; [done|cbn; lia]]. }
  destruct (date_ltb e (clock w (S (clock_reads st)))) eqn:Hnow2.
  { left. eexists _, _. split; [done|split; [done|cbn; lia]]. }
  right. exists r, m, s, e.
  unfold date_le, date_leb. rewrite Hes, Hnow1, Hnow2. by split_and!.
Qed.

Lemma get_roomlist_shape (w : world) (self : DimsInventoryClient)
    (resort_id : pyval) (hdr : string) (st : effects) :
  rejected_or_exchanged w self hdr parse_roomlist st
    (get_roomlist w self resort_id hdr st).
Proof.
  rewrite get_roomlist_run.
  destruct (except_ValueError _ _) as [r|e]; [right|left]; by eexists _, _.
Qed.

Lemma retrieve_availability_shape (w : world) (self : DimsInventoryClient)
    (room_id resort_id : pyval) (start_date end_date hdr : string)
    (st : effects) :
  rejected_or_exchanged w self hdr parse_availability st
    (retrieve_availability w self room_id resort_id start_date end_date hdr
       st).
Proof.
  destruct (retrieve_availability_run w self room_id resort_id start_date
              end_date hdr st)
    as [(e & st' & -> & Hsent & _)|(r & m & s & e & _ & _ & _ & _ & _ & _ & _ & ->)].
  - left. by exists e, st'.
  - right. by eexists _, _.
Qed.

Lemma update_availability_shape (w : world) (self : DimsInventoryClient)
    (room_id resort_id qty : pyval) (date_text hdr : string) (st : effects) :
  rejected_or_exchanged w self hdr
    (fun root => text_of (find_below "Message" root)) st
    (update_availability w self room_id resort_id date_text qty hdr st).
Proof.
  rewrite update_availability_run.
  destruct (except_ValueError (obind _ _) _) as [[[r s] n]|e];
    [|left; by eexists _, _].
  destruct (except_ValueError _ _) as [d|e]; [right|left]; by eexists _, _.
Qed.

Lemma get_bookings_shape (w : world) (self : DimsInventoryClient)
    (resort_id : pyval) (start_date end_date hdr : string) (st : effects) :
  rejected_or_exchanged w self hdr parse_bookings st
    (get_bookings w self resort_id start_date end_date hdr st).
Proof.
  rewrite get_bookings_run.
  destruct (except_ValueError (int_py resort_id) _) as [r|e];
    [|left; by eexists _, _].
  destruct (except_ValueError _ _) as [[s e]|e]; [right|left]; by eexists _, _.
Qed.

(** ** Requests, answers and the clock *)

(** Nothing was sent in a run, or one request: a POST to the inventory
    address, with the XML content type, the action header under the service
    namespace and an envelope of the client as data. *)
Definition at_most_one_post {A} (self : DimsInventoryClient) (hdr : string)
    (st : effects) (run : outcome A * effects) : Prop :=
  sent (snd run) = sent st
  \/ exists req,
       sent (snd run) = sent st ++ [req]
       /\ req_method req = "POST"
       /\ req_url req = _INVENTORY_SERVICE_URL_
       /\ req_content_type req = "text/xml; charset=utf-8"
       /\ req_soap_action req = "https://dims.ignitetravel.com/IMSXML/" +:+ hdr
       /\ exists payload, req_data req = format_soap_envelope self payload.

(** Once a request has left, the answer decides the outcome of the run. *)
Definition answer_decides {A} (w : world) (walk : element -> outcome A)
    (st : effects) (run : outcome A * effects) : Prop :=
  forall req, sent (snd run) = sent st ++ [req] ->
    (server w req = NoAnswer -> fst run = Raise ConnectionError)
    /\ (forall status body, server w req = Answer status body ->
          (400 <= status < 600 -> fst run = Raise HTTPError)
          /\ (good_status status -> body = None -> fst run = Raise ParseError)
          /\ (forall root, good_status status -> body = Some root ->
                fst run = walk root)).

Lemma shape_at_most_one_post {A} (w : world) (self : DimsInventoryClient)
    (hdr : string) (walk : element -> outcome A) (st : effects)
    (run : outcome A * effects) :
  rejected_or_exchanged w self hdr walk st run ->
  at_most_one_post self hdr st run.
Proof.
  intros [(e & st' & -> & Hsent)|(payload & st' & -> & Hsent)].
  - by left.
  - right. rewrite exchange_cases. cbn [snd after_request sent].
    eexists. rewrite Hsent. split; [done|]. split_and!; try done.
    by exists payload.
Qed.

Lemma shape_answer_decides {A} (w : world) (self : DimsInventoryClient)
    (hdr : string) (walk : element -> outcome A) (st : effects)
    (run : outcome A * effects) :
  rejected_or_exchanged w self hdr walk st run -> answer_decides w walk st run.
Proof.
  intros [(e & st' & -> & Hsent)|(payload & st' & -> & Hsent)] req Hreq.
  - exfalso. cbn in Hreq. rewrite Hsent in Hreq.
    apply (f_equal length) in Hreq. rewrite length_app in Hreq. cbn in Hreq.
    lia.
  - rewrite exchange_cases in Hreq |- *. cbn [fst snd after_request sent] in *.
    rewrite Hsent in Hreq. apply app_inj_tail in Hreq as [_ ->].
    split; [by intros ->|]. intros status body ->.
    destruct (raise_for_status_spec status) as [[Hgood _]|[Hbad _]].
    + replace ((400 <=? status) && (status <? 600)) with false
        by (unfold good_status in Hgood; lia).
      split_and!; [unfold good_status in Hgood; lia|by intros _ ->|].
      by intros root _ ->.
    + replace ((400 <=? status) && (status <? 600)) with true by lia.
      unfold good_status. split_and!; [done|lia|lia].
Qed.

(** X2.  Each of the four operations sends at most one request in a run, and
    the request it sends is a POST to the inventory address with the content
    type text/xml, the SOAPAction built from the action header, and an
    envelope of the client as data: the rates address is never used. *)
Theorem operations_send_at_most_one_post (w : world)
    (self : DimsInventoryClient) (hdr : string) (st : effects) :
  (forall resort_id,
     at_most_one_post self hdr st (get_roomlist w self resort_id hdr st))
  /\ (forall room_id resort_id start_date end_date,
        at_most_one_post self hdr st
          (retrieve_availability w self room_id resort_id start_date end_date
             hdr st))
  /\ (forall room_id resort_id date_text qty,
        at_most_one_post self hdr st
          (update_availability w self room_id resort_id date_text qty hdr st))
  /\ (forall resort_id start_date end_date,
        at_most_one_post self hdr st
          (get_bookings w self resort_id start_date end_date hdr st)).
Proof.
  split_and!; intros.
  - eapply shape_at_most_one_post, get_roomlist_shape.
  - eapply shape_at_most_one_post, retrieve_availability_shape.
  - eapply shape_at_most_one_post, update_availability_shape.
  - eapply shape_at_most_one_post, get_bookings_shape.
Qed.

(** X3.  Once an operation has sent its request, the answer alone decides
    how it ends: ConnectionError when no answer comes, HTTPError for a status
    between 400 and 599, ParseError for a body that is no document, and
    otherwise what the operation makes of the document: the room list, the
    sorted availability, the text of the first Message element, or the
    result of the test of the bookings marker. *)
Theorem answer_decides_the_outcome (w : world) (self : DimsInventoryClient)
    (hdr : string) (st : effects) :
  (forall resort_id,
     answer_decides w parse_roomlist st (get_roomlist w self resort_id hdr st))
  /\ (forall room_id resort_id start_date end_date,
        answer_decides w parse_availability st
          (retrieve_availability w self room_id resort_id start_date end_date
             hdr st))
  /\ (forall room_id resort_id date_text qty,
        answer_decides w (fun root => text_of (find_below "Message" root)) st
          (update_availability w self room_id resort_id date_text qty hdr st))
  /\ (forall resort_id start_date end_date,
        answer_decides w parse_bookings st
          (get_bookings w self resort_id start_date end_date hdr st)).
Proof.
  split_and!; intros.
  - eapply shape_answer_decides, get_roomlist_shape.
  - eapply shape_answer_decides, retrieve_availability_shape.
  - eapply shape_answer_decides, update_availability_shape.
  - eapply shape_answer_decides, get_bookings_shape.
Qed.

(** A service that answers every request with status 500. *)
Definition failing_world : world :=
  {| clock := fun _ => Date 2030 1 1;
     server := fun _ => Answer 500 (Some rooms_doc) |}.

(** Against a service that answers 500, get_roomlist raises HTTPError although
    the body is a good document. *)
Lemma answer_decides_the_outcome_witness :
  fst (get_roomlist failing_world sample_client (PyInt 12) GetRoomList fresh)
  = Raise HTTPError.
Proof.
  destruct (answer_decides_the_outcome failing_world sample_client GetRoomList
              fresh) as [H _].
  destruct (H (PyInt 12)
              (build_request sample_client "POST" (roomlist_body 12)
                 GetRoomList "inventory") eq_refl) as [_ H'].
  destruct (H' 500 (Some rooms_doc) eq_refl) as [Hbad _].
  apply Hbad. lia.
Defined.

(** X4.  Only retrieve_availability reads the clock.  It reads it at most
    twice, and exactly twice in every run that sends a request; the other
    three operations never read it. *)
Theorem only_retrieve_availability_reads_the_clock (w : world)
    (self : DimsInventoryClient) (hdr : string) (st : effects) :
  (forall resort_id,
     clock_reads (snd (get_roomlist w self resort_id hdr st)) = clock_reads st)
  /\ (forall room_id resort_id date_text qty,
        clock_reads
          (snd (update_availability w self room_id resort_id date_text qty hdr
                  st)) = clock_reads st)
  /\ (forall resort_id start_date end_date,
        clock_reads
          (snd (get_bookings w self resort_id start_date end_date hdr st))
        = clock_reads st)
  /\ (forall room_id resort_id start_date end_date,
        let run := retrieve_availability w self room_id resort_id start_date
                     end_date hdr st in
        (clock_reads st <= clock_reads (snd run) <= clock_reads st + 2)%nat
        /\ (sent (snd run) <> sent st ->
            clock_reads (snd run) = (clock_reads st + 2)%nat)).
Proof.
  split_and!.
  - intros resort_id. rewrite get_roomlist_run.
    destruct (except_ValueError _ _); [|done]. by rewrite exchange_cases.
  - intros room_id resort_id date_text qty. rewrite update_availability_run.
    destruct (except_ValueError (obind _ _) _) as [[[r s] n]|e]; [|done].
    destruct (except_ValueError _ _); [|done]. by rewrite exchange_cases.
  - intros resort_id start_date end_date. rewrite get_bookings_run.
    destruct (except_ValueError (int_py resort_id) _); [|done].
    destruct (except_ValueError _ _) as [[s e]|e]; [|done].
    by rewrite exchange_cases.
  - intros room_id resort_id start_date end_date run. subst run.
    destruct (retrieve_availability_run w self room_id resort_id start_date
                end_date hdr st)
      as [(e & st' & -> & Hsent & Hreads)
         |(r & m & s & e & _ & _ & _ & _ & _ & _ & _ & ->)].
    + cbn [snd]. split; [done|]. by intros [].
    + rewrite exchange_cases. cbn. split; [lia|]. intros _. lia.
Qed.

(** ** Validation in the other three operations *)

(** X5.  get_roomlist converts the resort id with [int] before anything else.
    A text that is no integer raises the ValueError of the operation and
    nothing is sent; the value None raises TypeError, which the guard does not
    catch; an integer or the text of one is accepted, and the request that
    leaves carries the body for that integer. *)
Theorem get_roomlist_validation (w : world) (self : DimsInventoryClient)
    (resort_id : pyval) (hdr : string) (st : effects) :
  let run := get_roomlist w self resort_id hdr st in
  (forall s, resort_id = PyStr s -> int_of_str s = None ->
     run = (Raise (ValueError "Resort ID must be an integer"), st))
  /\ (resort_id = PyNone -> run = (Raise TypeError, st))
  /\ (forall r, int_py resort_id = Ret r ->
        run = exchange w self (roomlist_body r) hdr parse_roomlist st
        /\ snd run
           = after_request st
               (build_request self "POST" (roomlist_body r) hdr "inventory")).
Proof.
  intros run. subst run. rewrite get_roomlist_run. split_and!.
  - intros s -> Hs. cbn. by rewrite Hs.
  - by intros ->.
  - intros r ->. cbn [except_ValueError]. split; [done|].
    by rewrite exchange_cases.
Qed.

Lemma get_roomlist_validation_witness :
  get_roomlist (steady_world (Date 2030 1 1) rooms_doc) sample_client
    (PyStr "twelve") GetRoomList fresh
  = (Raise (ValueError "Resort ID must be an integer"), fresh)
  /\ fst (get_roomlist (steady_world (Date 2030 1 1) rooms_doc) sample_client
            (PyStr " 12 ") GetRoomList fresh)
     = parse_roomlist rooms_doc.
Proof.
  split.
  - by apply (get_roomlist_validation _ _ _ _ _) with (s := "twelve").
  - destruct (get_roomlist_validation (steady_world (Date 2030 1 1) rooms_doc)
                sample_client (PyStr " 12 ") GetRoomList fresh)
      as (_ & _ & H).
    destruct (H 12 eq_refl) as [-> _]. by rewrite exchange_cases.
Defined.

(** X6.  update_availability converts the room id, the resort id and the
    quantity, in that order, and then parses the date as DD-MM-YYYY.  The
    first text that is no integer raises the ValueError for the three
    integers, also when the date is bad; a bad date raises the ValueError for
    the date; in both cases nothing is sent.  There is no other check: any
    date of that form, past or not, and any integer quantity, negative or
    not, is sent. *)
Theorem update_availability_validation (w : world)
    (self : DimsInventoryClient) (room_id resort_id qty : pyval)
    (date_text hdr : string) (st : effects) :
  let run :=
    update_availability w self room_id resort_id date_text qty hdr st in
  let ids_error :=
    ValueError "Room ID, Resort ID and Quantity must be integers" in
  (forall msg, int_py room_id = Raise (ValueError msg) ->
     run = (Raise ids_error, st))
  /\ (forall r msg, int_py room_id = Ret r ->
        int_py resort_id = Raise (ValueError msg) ->
        run = (Raise ids_error, st))
  /\ (forall r s msg, int_py room_id = Ret r -> int_py resort_id = Ret s ->
        int_py qty = Raise (ValueError msg) -> run = (Raise ids_error, st))
  /\ (forall r s n, int_py room_id = Ret r -> int_py resort_id = Ret s ->
        int_py qty = Ret n ->
        (forall msg, strptime_dmy date_text = Raise (ValueError msg) ->
           run = (Raise (ValueError "Invalid date format"), st))
        /\ (forall d, strptime_dmy date_text = Ret d ->
              run = exchange w self (update_body r s (isoformat d) n) hdr
                      (fun root => text_of (find_below "Message" root)) st
              /\ sent (snd run) <> sent st)).
Proof.
  intros run ids_error. subst run. rewrite update_availability_run.
  split_and!.
  - by intros msg ->.
  - by intros r msg -> ->.
  - by intros r s msg -> -> ->.
  - intros r s n -> -> ->. cbn [obind except_ValueError]. split.
    + by intros msg ->.
    + intros d ->. cbn [except_ValueError]. split; [done|].
      rewrite exchange_cases. cbn. intros Heq.
      apply (f_equal length) in Heq. rewrite length_app in Heq. cbn in Heq.
      lia.
Qed.

(** A date long past and a negative quantity are sent, and the text of the
    first Message element comes back. *)
Lemma update_availability_validation_witness :
  update_availability (steady_world (Date 2030 1 1) error_doc) sample_client
    (PyInt 3) (PyInt 12) "31-12-1999" (PyInt (-5)) UpdateInventory fresh
  = (Ret (Some "Resort not found"),
     after_request fresh
       (build_request sample_client "POST"
          (update_body 3 12 "1999-12-31" (-5)) UpdateInventory "inventory"))
  /\ update_availability (steady_world (Date 2030 1 1) error_doc) sample_client
       (PyInt 3) (PyStr "x") "never" (PyInt 1) UpdateInventory fresh
     = (Raise (ValueError "Room ID, Resort ID and Quantity must be integers"),
        fresh).
Proof.
  split.
  - destruct (update_availability_validation
                (steady_world (Date 2030 1 1) error_doc) sample_client
                (PyInt 3) (PyInt 12) (PyInt (-5)) "31-12-1999" UpdateInventory
                fresh) as (_ & _ & _ & H).
    destruct (H 3 12 (-5) eq_refl eq_refl eq_refl) as [_ H'].
    destruct (H' (Date 1999 12 31) eq_refl) as [-> _].
    by rewrite exchange_cases.
  - destruct (update_availability_validation
                (steady_world (Date 2030 1 1) error_doc) sample_client
                (PyInt 3) (PyStr "x") (PyInt 1) "never" UpdateInventory
                fresh) as (_ & H & _).
    exact (H 3 "invalid literal for int() with base 10" eq_refl eq_refl).
Defined.

(** X7.  get_bookings converts the resort id and then parses the two dates as
    YYYY-MM-DD, start first; a failure raises the ValueError of the step and
    nothing is sent.  Unlike retrieve_availability it compares the dates with
    nothing: a start after the end, or dates in the past, are sent, in ISO
    form. *)
Theorem get_bookings_validation (w : world) (self : DimsInventoryClient)
    (resort_id : pyval) (start_date end_date hdr : string) (st : effects) :
  let run := get_bookings w self resort_id start_date end_date hdr st in
  (forall msg, int_py resort_id = Raise (ValueError msg) ->
     run = (Raise (ValueError "Resort ID must be an integer"), st))
  /\ (forall r, int_py resort_id = Ret r ->
        (forall msg, strptime_ymd start_date = Raise (ValueError msg) ->
           run = (Raise (ValueError "Invalid date format"), st))
        /\ (forall s msg, strptime_ymd start_date = Ret s ->
              strptime_ymd end_date = Raise (ValueError msg) ->
              run = (Raise (ValueError "Invalid date format"), st))
        /\ (forall s e, strptime_ymd start_date = Ret s ->
              strptime_ymd end_date = Ret e ->
              run = exchange w self
                      (bookings_body r (isoformat s) (isoformat e)) hdr
                      parse_bookings st
              /\ snd run
                 = after_request st
                     (build_request self "POST"
                        (bookings_body r (isoformat s) (isoformat e)) hdr
                        "inventory"))).
Proof.
  intros run. subst run. rewrite get_bookings_run. split.
  - by intros msg ->.
  - intros r ->. cbn [except_ValueError]. split_and!.
    + by intros msg ->.
    + by intros s msg -> ->.
    + intros s e -> ->. cbn [obind except_ValueError]. split; [done|].
      by rewrite exchange_cases.
Qed.

(** A range that ends before it starts, all of it before the date the clock
    shows, is sent. *)
Lemma get_bookings_validation_witness :
  snd (get_bookings (steady_world (Date 2030 1 1) success_doc) sample_client
         (PyInt 12) "2021-5-9" "2020-01-01" GetBookingsListWithRoomRateIds
         fresh)
  = after_request fresh
      (build_request sample_client "POST"
         (bookings_body 12 "2021-05-09" "2020-01-01")
         GetBookingsListWithRoomRateIds "inventory").
Proof.
  destruct (get_bookings_validation (steady_world (Date 2030 1 1) success_doc)
              sample_client (PyInt 12) "2021-5-9" "2020-01-01"
              GetBookingsListWithRoomRateIds fresh) as [_ H].
  destruct (H 12 eq_refl) as (_ & _ & H').
  destruct (H' (Date 2021 5 9) (Date 2020 1 1) eq_refl eq_refl) as [_ ->].
  reflexivity.
Defined.

(** ** The two date formats *)

Lemma re_Y_inv (l : list ascii) :
  re_Y l <> [] ->
  exists a b c d rest,
    l = a :: b :: c :: d :: rest
    /\ is_digit a = true /\ is_digit b = true /\ is_digit c = true
    /\ is_digit d = true.
Proof.
  destruct l as [|a [|b [|c [|d rest]]]]; try done.
  unfold re_Y.
  destruct (is_digit a) eqn:Ha, (is_digit b) eqn:Hb, (is_digit c) eqn:Hc,
    (is_digit d) eqn:Hd; try done.
  intros _. by exists a, b, c, d, rest.
Qed.

Lemma re_ymd_nil (l : list ascii) : re_Y l = [] -> re_ymd l = [].
Proof. intros H. unfold re_ymd, lex_bind at 1. by rewrite H. Qed.

Lemma strptime_with_Ret_nonempty (re : lexer (Z * Z * Z)) (s : string)
    (d : date) :
  strptime_with re s = Ret d -> re (list_ascii_of_string s) <> [].
Proof. unfold strptime_with. by destruct (re _). Qed.

Lemma strptime_ymd_not_dmy (s : string) (d : date) :
  strptime_ymd s = Ret d ->
  strptime_dmy s = Raise (ValueError "time data does not match format").
Proof.
  intros Hne%strptime_with_Ret_nonempty.
  destruct (re_Y (list_ascii_of_string s)) as [|x xs] eqn:HY.
  { by rewrite re_ymd_nil in Hne. }
  destruct (re_Y_inv (list_ascii_of_string s)) as (a & b & c & e & rest & Hl & _ & Hb & Hc & _);
    [by rewrite HY|].
  unfold strptime_dmy, strptime_with.
  by rewrite Hl, re_dmy_second_third_digit.
Qed.

Lemma strptime_dmy_not_ymd (s : string) (d : date) :
  strptime_dmy s = Ret d ->
  strptime_ymd s = Raise (ValueError "time data does not match format").
Proof.
  intros Hne%strptime_with_Ret_nonempty.
  destruct (re_Y (list_ascii_of_string s)) as [|x xs] eqn:HY.
  { unfold strptime_ymd, strptime_with. by rewrite re_ymd_nil. }
  destruct (re_Y_inv (list_ascii_of_string s)) as (a & b & c & e & rest & Hl & _ & Hb & Hc & _);
    [by rewrite HY|].
  by rewrite Hl, re_dmy_second_third_digit in Hne.
Qed.

(** X8.  No text is a date in both formats.  So update_availability, which
    reads DD-MM-YYYY, rejects every date text that retrieve_availability and
    get_bookings accept, and these two, which read YYYY-MM-DD, reject every
    date text that update_availability accepts; in each case the operation
    raises its ValueError for the date and sends nothing. *)
Theorem date_formats_are_disjoint (w : world) (self : DimsInventoryClient)
    (hdr : string) (st : effects) (text : string) (d : date) :
  (strptime_ymd text = Ret d ->
   forall room_id resort_id qty r s n,
     int_py room_id = Ret r -> int_py resort_id = Ret s ->
     int_py qty = Ret n ->
     update_availability w self room_id resort_id text qty hdr st
     = (Raise (ValueError "Invalid date format"), st))
  /\ (strptime_dmy text = Ret d ->
      (forall room_id resort_id end_date r m,
         int_py resort_id = Ret r -> int_py room_id = Ret m ->
         retrieve_availability w self room_id resort_id text end_date hdr st
         = (Raise (ValueError "Invalid date format"), st))
      /\ (forall resort_id end_date r,
            int_py resort_id = Ret r ->
            get_bookings w self resort_id text end_date hdr st
            = (Raise (ValueError "Invalid date format"), st))).
Proof.
  split.
  - intros Hd%strptime_ymd_not_dmy room_id resort_id qty r s n Hr Hs Hn.
    rewrite update_availability_run, Hr, Hs, Hn, Hd. done.
  - intros Hd%strptime_dmy_not_ymd. split.
    + intros room_id resort_id end_date r m Hr Hm.
      unfold retrieve_availability. by rewrite Hr, Hm, Hd.
    + intros resort_id end_date r Hr.
      rewrite get_bookings_run, Hr, Hd. done.
Qed.

(** The text 2030-01-10 is a date for retrieve_availability and none for
    update_availability. *)
Lemma date_formats_are_disjoint_witness :
  update_availability (steady_world (Date 2030 1 1) empty_doc) sample_client
    (PyInt 3) (PyInt 12) "2030-01-10" (PyInt 4) UpdateInventory fresh
  = (Raise (ValueError "Invalid date format"), fresh).
Proof.
  destruct (date_formats_are_disjoint (steady_world (Date 2030 1 1) empty_doc)
              sample_client UpdateInventory fresh "2030-01-10"
              (Date 2030 1 10)) as [H _].
  exact (H eq_refl (PyInt 3) (PyInt 12) (PyInt 4) 3 12 4 eq_refl eq_refl
           eq_refl).
Defined.

(** ** Dates written into a request read back *)

Lemma re_Y_digit_chars (y : Z) (rest : list ascii) :
  0 <= y <= 9999 ->
  re_Y (digit_char 3 y :: digit_char 2 y :: digit_char 1 y :: digit_char 0 y
        :: rest) = [(y, rest)].
Proof.
  intros Hy. unfold re_Y.
  destruct (digit_char_spec 3 y) as [-> ->], (digit_char_spec 2 y) as [-> ->],
    (digit_char_spec 1 y) as [-> ->], (digit_char_spec 0 y) as [-> ->].
  cbn [andb]. do 2 f_equal.
  change (10 ^ Z.of_nat 3) with 1000. change (10 ^ Z.of_nat 2) with 100.
  change (10 ^ Z.of_nat 1) with 10. change (10 ^ Z.of_nat 0) with 1.
  Z.div_mod_to_equations. lia.
Qed.

Lemma re_md_digit_chars (y m d : Z) :
  1 <= m <= 12 -> 1 <= d <= 31 ->
  exists others,
    lex_bind re_m (fun m' => lex_bind dash (fun _ => lex_bind re_d (fun d' =>
      lex_ret (y, m', d'))))
      [digit_char 1 m; digit_char 0 m; "-"%char; digit_char 1 d;
       digit_char 0 d]
    = ((y, m, d), []) :: others.
Proof.
  intros Hm Hd.
  assert (Hms : In m [1;2;3;4;5;6;7;8;9;10;11;12]) by (cbn; lia).
  assert (Hds : In d [1;2;3;4;5;6;7;8;9;10;11;12;13;14;15;16;17;18;19;20;
                      21;22;23;24;25;26;27;28;29;30;31]) by (cbn; lia).
  clear Hm Hd. cbn [In] in Hms, Hds.
  repeat (destruct Hms as [<-|Hms]); [..|done];
    repeat (destruct Hds as [<-|Hds]); try done;
    vm_compute; eexists; reflexivity.
Qed.

Lemma dash_dash (rest : list ascii) : dash ("-"%char :: rest) = [(tt, rest)].
Proof. reflexivity. Qed.

Lemma strptime_ymd_isoformat (d : date) :
  1 <= year d <= 9999 -> 1 <= month d <= 12 ->
  1 <= day d <= days_in_month (year d) (month d) ->
  strptime_ymd (isoformat d) = Ret d.
Proof.
  destruct d as [y m dd]. cbn [year month day]. intros Hy Hm Hd.
  pose proof (days_in_month_le y m) as Hle.
  unfold strptime_ymd, strptime_with, isoformat. cbn [year month day].
  rewrite list_ascii_of_string_of_list_ascii.
  unfold re_ymd, lex_bind at 1. rewrite re_Y_digit_chars by lia.
  cbn [flat_map]. unfold lex_bind at 1. rewrite dash_dash. cbn [flat_map].
  destruct (re_md_digit_chars y m dd) as [others ->]; [lia..|]. cbn [app].
  unfold date_new.
  replace ((1 <=? y) && (y <=? 9999)) with true by lia.
  replace ((1 <=? m) && (m <=? 12)) with true by lia.
  replace ((1 <=? dd) && (dd <=? days_in_month y m)) with true by lia.
  done.
Qed.

(** X9.  The text an operation writes for a date it has accepted (with
    strftime in retrieve_availability, with str in get_bookings and
    update_availability) is the canonical form YYYY-MM-DD of that date: read
    as YYYY-MM-DD it gives the same date back.  So a start date given as
    2030-1-5 is sent as 2030-01-05. *)
Theorem request_dates_read_back (text : string) (d : date) :
  strptime_ymd text = Ret d \/ strptime_dmy text = Ret d ->
  strptime_ymd (strftime_ymd d) = Ret d
  /\ strptime_ymd (isoformat d) = Ret d
  /\ spells_date (isoformat d) d.
Proof.
  intros H.
  assert (Hvalid : 1 <= year d <= 9999 /\ 1 <= month d <= 12
                   /\ 1 <= day d <= days_in_month (year d) (month d)).
  { destruct H as [H|H]; by apply strptime_with_valid in H. }
  destruct Hvalid as (Hy & Hm & Hd).
  pose proof (days_in_month_le (year d) (month d)).
  split_and!; [by apply strptime_ymd_isoformat..|].
  apply isoformat_spells_date; lia.
Qed.

Lemma request_dates_read_back_witness :
  strptime_ymd "2030-1-5" = Ret (Date 2030 1 5)
  /\ strftime_ymd (Date 2030 1 5) = "2030-01-05"
  /\ strptime_ymd (strftime_ymd (Date 2030 1 5)) = Ret (Date 2030 1 5).
Proof.
  split; [reflexivity|]. split; [reflexivity|].
  by destruct (request_dates_read_back "2030-1-5" (Date 2030 1 5)
                 (or_introl eq_refl)) as [H _].
Defined.

(** ** When the parses return *)

Lemma traverse_returns {A B} (f : A -> outcome B) (xs : list A) :
  (exists ys, traverse f xs = Ret ys)
  <-> Forall (fun x => exists y, f x = Ret y) xs.
Proof.
  induction xs as [|x xs IH]; cbn.
  - split; [constructor|by eexists].
  - rewrite Forall_cons, <- IH. destruct (f x) as [y|e]; cbn.
    + destruct (traverse f xs) as [ys|e]; cbn.
      * split; [intros _; split; by eexists|by eexists].
      * split; [by intros [? ?]|by intros [_ [? ?]]].
    + split; [by intros [? ?]|by intros [[? ?] _]].
Qed.

(** The exception of a loop is the one of the first element that fails. *)
Lemma traverse_Raise {A B} (f : A -> outcome B) (xs : list A) (e : exn) :
  traverse f xs = Raise e
  <-> exists before x after,
        xs = before ++ x :: after
        /\ Forall (fun x => exists y, f x = Ret y) before
        /\ f x = Raise e.
Proof.
  induction xs as [|x xs IH]; cbn.
  - split; [done|]. intros (before & x & after & Heq & _).
    by destruct before.
  - destruct (f x) as [y|e'] eqn:Hx; cbn.
    + transitivity (traverse f xs = Raise e).
      { by destruct (traverse f xs). }
      rewrite IH. split.
      * intros (before & x0 & after & -> & Hok & Hx0).
        exists (x :: before), x0, after. split_and!; try done.
        constructor; [by eexists|done].
      * intros ([|x' before] & x0 & after & Heq & Hok & Hx0).
        -- injection Heq as <- _. congruence.
        -- injection Heq as <- ->. apply Forall_cons in Hok as [_ Hok].
           by exists before, x0, after.
    + split.
      * intros [= ->]. exists [], x, xs. by split_and!.
      * intros ([|x' before] & x0 & after & Heq & Hok & Hx0).
        -- injection Heq as <- _. congruence.
        -- injection Heq as <- ->. apply Forall_cons in Hok as [[y Hy] _].
           congruence.
Qed.

(** The records the linked-rate pass makes, in document order: one for each
    element that passes the guard. *)
Definition rates_of (lrs : list element) : list LinkedRate :=
  flat_map (fun lr =>
    if lacks_field lr then []
    else match linked_rate_model lr with
         | Ret model => [model]
         | Raise _ => []
         end) lrs.

(** A linked-rate element the pass gets through: it lacks a field, or its
    record can be made. *)
Definition passable (lr : element) : Prop :=
  lacks_field lr = true \/ exists model, linked_rate_model lr = Ret model.

Lemma linked_rate_pass_returns (lrs : list element) (rooms : list Room) :
  (exists rooms', foreach attach_linked_rate lrs rooms = Ret rooms')
  <-> Forall passable lrs.
Proof.
  revert rooms. induction lrs as [|lr lrs IH]; intros rooms; cbn.
  - split; [constructor|by eexists].
  - rewrite Forall_cons. unfold attach_linked_rate at 1, passable at 1.
    destruct (lacks_field lr); cbn.
    + rewrite IH. split; [intros ?; split; [by left|done]|tauto].
    + destruct (linked_rate_model lr) as [m|e]; cbn.
      * rewrite IH. split; [intros ?; split; [right; by eexists|done]|tauto].
      * split; [by intros [? ?]|]. intros [[?|[? ?]] _]; done.
Qed.

Lemma linked_rate_pass_fold (lrs : list element) (rooms rooms' : list Room) :
  foreach attach_linked_rate lrs rooms = Ret rooms' ->
  rooms' = fold_left assign_linked_rate (rates_of lrs) rooms.
Proof.
  revert rooms. induction lrs as [|lr lrs IH]; intros rooms; cbn.
  - by intros [= <-].
  - unfold attach_linked_rate at 1.
    destruct (lacks_field lr); cbn; [apply IH|].
    destruct (linked_rate_model lr) as [m|e]; cbn; [apply IH|done].
Qed.

(** X10.  The room-list parse is all or nothing.  It returns a list exactly
    when every room element parses (it has a RoomTypeId with the text of an
    integer and a Description) and every linked-rate element either lacks one
    of its three children or yields a record (its RateId and RoomId hold the
    text of an integer).  One element outside these cases, a room or a
    complete linked rate with a text that is no integer, makes the whole
    operation raise, with no partial list. *)
Theorem roomlist_parse_is_all_or_nothing (root : element) :
  (exists rl, parse_roomlist root = Ret rl)
  <-> Forall (fun e => exists r, parse_room e = Ret r) (findall "Room" root)
      /\ Forall passable (findall "LinkedRate" root).
Proof.
  rewrite <- traverse_returns. unfold parse_roomlist. split.
  - intros [rl Hrl].
    destruct (traverse parse_room _) as [rooms0|e]; cbn in Hrl; [|done].
    split; [by eexists|].
    apply (linked_rate_pass_returns _ rooms0).
    destruct (foreach _ _ rooms0) as [rooms'|e]; [by eexists|done].
  - intros [[rooms0 ->] Hlrs]. cbn.
    apply (linked_rate_pass_returns _ rooms0) in Hlrs as [rooms' ->].
    by eexists.
Qed.

(** ** Which linked rate a room ends up with *)

Lemma assign_linked_rate_lookup (rooms : list Room) (model : LinkedRate)
    (i : nat) (r : Room) :
  rooms !! i = Some r ->
  assign_linked_rate rooms model !! i
  = Some (if bool_decide (room_id r = linked_room_id model
                          /\ Forall (fun r' => room_id r' <> room_id r)
                               (take i rooms))
          then set_linked_rate model r else r).
Proof.
  intros Hi.
  destruct (assign_linked_rate_cases rooms model)
    as [[-> Hnone]|(j & rj & Hj & Hrj & Hfirst & ->)].
  - rewrite bool_decide_eq_false_2; [done|]. intros [Hid _].
    rewrite Forall_lookup in Hnone. by apply (Hnone i r).
  - destruct (decide (i = j)) as [->|Hij].
    + assert (rj = r) as -> by congruence.
      rewrite list_lookup_insert_eq by (by eapply lookup_lt_Some).
      rewrite bool_decide_eq_true_2; [done|]. split; [done|].
      apply Forall_lookup. intros k r' [Hk Hlt]%lookup_take_Some.
      rewrite Hrj. by eapply Hfirst.
    + rewrite list_lookup_insert_ne by done. rewrite Hi.
      rewrite bool_decide_eq_false_2; [done|]. intros [Hid Hbefore].
      destruct (decide (j < i)%nat) as [Hlt|Hge].
      * rewrite Forall_lookup in Hbefore.
        apply (Hbefore j rj); [by apply lookup_take_Some|congruence].
      * apply (Hfirst i r); [done|lia|done].
Qed.

Lemma first_with_id_frame (rooms rooms' : list Room) (i : nat) (n : Z) :
  Forall2 slot_filled_only rooms rooms' ->
  Forall (fun r' => room_id r' <> n) (take i rooms')
  <-> Forall (fun r' => room_id r' <> n) (take i rooms).
Proof.
  intros H%(Forall2_take _ _ _ i). revert H.
  generalize (take i rooms) (take i rooms'). clear.
  induction 1 as [|r r' l l' (Hid & _) _ IH]; [done|].
  rewrite !Forall_cons, IH, Hid. done.
Qed.

Lemma fold_assign_linked_rate_lookup (models : list LinkedRate)
    (rooms : list Room) (i : nat) (r : Room) :
  rooms !! i = Some r ->
  exists r',
    fold_left assign_linked_rate models rooms !! i = Some r'
    /\ room_id r' = room_id r
    /\ linked_rate r'
       = if bool_decide (Forall (fun r' => room_id r' <> room_id r)
                           (take i rooms))
         then from_option Some (linked_rate r)
                (last (filter (fun m => linked_room_id m = room_id r) models))
         else linked_rate r.
Proof.
  revert rooms r. induction models as [|m models IH]; intros rooms r Hi.
  - exists r. cbn. split_and!; try done. by case_bool_decide.
  - cbn [fold_left].
    pose proof (assign_linked_rate_lookup rooms m i r Hi) as Hi1.
    destruct (IH _ _ Hi1) as (r' & Hr' & Hid & Hrate). clear IH.
    exists r'. split; [done|].
    set (r1 := if bool_decide _ then set_linked_rate m r else r) in *.
    assert (Hid1 : room_id r1 = room_id r).
    { unfold r1. by destruct (bool_decide _). }
    split; [congruence|]. rewrite Hrate, Hid1.
    rewrite (bool_decide_ext _ _
               (first_with_id_frame rooms (assign_linked_rate rooms m) i
                  (room_id r) (assign_linked_rate_frame rooms m))).
    subst r1.
    destruct (decide (Forall (fun r' => room_id r' <> room_id r)
                        (take i rooms))) as [Hfirst|Hfirst].
    + rewrite !(bool_decide_eq_true_2 _ Hfirst). rewrite filter_cons.
      destruct (decide (linked_room_id m = room_id r)) as [Hm|Hm].
      * rewrite bool_decide_eq_true_2 by done.
        cbn [linked_rate set_linked_rate].
        rewrite last_cons. clear. destruct (last _); reflexivity.
      * rewrite bool_decide_eq_false_2; [done|]. intros [? _]. congruence.
    + rewrite !(bool_decide_eq_false_2 _ Hfirst).
      rewrite bool_decide_eq_false_2; [done|]. by intros [_ ?].
Qed.

(** Rooms 1, 2 and 2 again, and two rates for room 2. *)
Definition contested_doc : element :=
  Element "Envelope" None
    [ Element "Room" None [leaf "RoomTypeId" "1"; leaf "Description" "Sea view"];
      Element "Room" None [leaf "RoomTypeId" "2"; leaf "Description" "Garden"];
      Element "Room" None [leaf "RoomTypeId" "2"; leaf "Description" "Annex"];
      Element "LinkedRate" None
        [leaf "RateId" "7"; leaf "RateDescription" "Flexible"; leaf "RoomId" "2"];
      Element "LinkedRate" None
        [leaf "RateId" "8"; leaf "RateDescription" "Saver"; leaf "RoomId" "2"] ].

(** X11.  In the returned list a room carries the record of the last
    linked-rate element of the document that passes the guard and references
    its identifier, provided no earlier room of the list has the same
    identifier; it carries none when no such element exists.  A room that
    repeats the identifier of an earlier room never carries a linked rate. *)
Theorem last_linked_rate_wins (root : element) (rl : RoomList) (i : nat)
    (r : Room) :
  parse_roomlist root = Ret rl -> rooms rl !! i = Some r ->
  linked_rate r
  = if bool_decide (Forall (fun r' => room_id r' <> room_id r)
                      (take i (rooms rl)))
    then last (filter (fun m => linked_room_id m = room_id r)
                 (rates_of (findall "LinkedRate" root)))
    else None.
Proof.
  intros (rooms0 & Hrooms & Hpass)%parse_roomlist_Ret Hi.
  pose proof (linked_rate_pass_frame _ _ _ Hpass) as Hframe.
  apply linked_rate_pass_fold in Hpass.
  destruct (Forall2_lookup_r _ _ _ _ _ Hframe Hi) as (r0 & Hi0 & Hid & _).
  destruct (fold_assign_linked_rate_lookup
              (rates_of (findall "LinkedRate" root)) rooms0 i r0 Hi0)
    as (r' & Hr' & _ & Hrate).
  rewrite <- Hpass, Hi in Hr'. injection Hr' as <-.
  assert (Hnone : linked_rate r0 = None).
  { apply traverse_Ret in Hrooms.
    destruct (Forall2_lookup_r _ _ _ _ _ Hrooms Hi0) as (e & _ & He).
    by apply parse_room_Ret in He as (_ & ? & _). }
  rewrite Hrate, Hnone, Hid.
  rewrite (bool_decide_ext _ _
             (first_with_id_frame rooms0 (rooms rl) i (room_id r0) Hframe)).
  case_bool_decide; [|done]. by destruct (last _).
Qed.

(** In [contested_doc] the first room 2 gets rate 8, the later of the two,
    and the second room 2 gets none. *)
Lemma last_linked_rate_wins_witness :
  exists rl first_two second_two,
    parse_roomlist contested_doc = Ret rl
    /\ rooms rl !! 1%nat = Some first_two
    /\ rooms rl !! 2%nat = Some second_two
    /\ linked_rate first_two
       = Some {| rate_id := 8; rate_description := Some "Saver";
                 linked_room_id := 2 |}
    /\ linked_rate second_two = None.
Proof.
  eexists _, _, _. split; [vm_compute; reflexivity|].
  split; [reflexivity|]. split; [reflexivity|]. split.
  - etransitivity;
      [exact (last_linked_rate_wins contested_doc _ 1%nat _ eq_refl eq_refl)|].
    vm_compute. reflexivity.
  - etransitivity;
      [exact (last_linked_rate_wins contested_doc _ 2%nat _ eq_refl eq_refl)|].
    vm_compute. reflexivity.
Defined.

(** ** The availability parse *)

(** X12.  The availability parse is all or nothing.  It returns exactly when
    every date entry of the document parses, and then with one record per
    entry; otherwise it raises the exception of the first entry, in document
    order, that fails to parse, and returns no partial sequence. *)
Theorem availability_parse_is_all_or_nothing (root : element) :
  ((exists l, parse_availability root = Ret l)
   <-> Forall (fun ds => exists a, parse_dateset ds = Ret a)
         (findall "DateSet" root))
  /\ (forall l, parse_availability root = Ret l ->
        length l = length (findall "DateSet" root))
  /\ (forall e, parse_availability root = Raise e
        <-> exists before ds after,
              findall "DateSet" root = before ++ ds :: after
              /\ Forall (fun ds => exists a, parse_dateset ds = Ret a) before
              /\ parse_dateset ds = Raise e).
Proof.
  split_and!.
  - rewrite <- traverse_returns. unfold parse_availability.
    destruct (traverse parse_dateset _) as [entries|e]; cbn.
    + split; intros _; by eexists.
    + split; by intros [? ?].
  - intros l (entries & Hentries & ->)%parse_availability_Ret.
    apply traverse_Ret, Forall2_length in Hentries.
    rewrite Hentries. apply Permutation_length, sort_by_Permutation.
  - intros e. rewrite <- traverse_Raise. unfold parse_availability.
    destruct (traverse parse_dateset _) as [entries|e']; cbn; [done|].
    done.
Qed.

Lemma sort_by_sorted_id {A} (key : A -> date) (l : list A) :
  StronglySorted (key_le key) l -> sort_by key l = l.
Proof.
  induction 1 as [|x l Hl IH Hx]; [done|].
  cbn [sort_by fold_right]. fold (sort_by key l). rewrite IH.
  destruct Hx as [|y l' Hxy _]; [done|]. cbn [insert_by].
  unfold key_le, date_le in Hxy. by rewrite Hxy.
Qed.

(** Two entries in date order, the second date twice. *)
Definition ordered_doc : element :=
  Element "Envelope" None
    [ dateset "01-03-2030" "5" "5"; dateset "02-03-2030" "0" "1";
      dateset "02-03-2030" "4" "4" ].

(** X13.  The sort changes nothing in a response that is already in order:
    the result of the availability parse is the sequence of the entries in
    document order exactly when their dates are non-decreasing in the
    document. *)
Theorem ordered_response_is_returned_as_is (root : element)
    (entries : list Availability) :
  traverse parse_dateset (findall "DateSet" root) = Ret entries ->
  (parse_availability root = Ret entries
   <-> StronglySorted (key_le dtm) entries).
Proof.
  intros Hentries. unfold parse_availability. rewrite Hentries. cbn. split.
  - intros [= Heq]. rewrite <- Heq. apply sort_by_sorted.
  - intros Hsorted. by rewrite sort_by_sorted_id.
Qed.

Lemma ordered_response_is_returned_as_is_witness :
  parse_availability ordered_doc
  = Ret [ {| inventory_available := 5; literal_inventory := 5;
             dtm := Date 2030 3 1 |};
          {| inventory_available := 0; literal_inventory := 1;
             dtm := Date 2030 3 2 |};
          {| inventory_available := 4; literal_inventory := 4;
             dtm := Date 2030 3 2 |} ].
Proof.
  apply (ordered_response_is_returned_as_is ordered_doc); [reflexivity|].
  repeat (constructor; [|repeat constructor]); constructor.
Defined.

(** ** Integers written into a request read back *)

From Stdlib Require DecimalPos.

(** The characters of a decimal number. *)
Definition uint_chars (d : Decimal.uint) : list ascii :=
  list_ascii_of_string (NilEmpty.string_of_uint d).

Lemma int_digits_acc (d : Decimal.uint) (acc : positive) :
  int_digits (Z.pos acc) true (uint_chars d)
  = Some (Z.pos (Pos.of_uint_acc d acc)).
Proof.
  revert acc. unfold uint_chars.
  induction d as [|d IH|d IH|d IH|d IH|d IH|d IH|d IH|d IH|d IH|d IH];
    intros acc; [done|..];
    cbn [NilEmpty.string_of_uint list_ascii_of_string int_digits
         Pos.of_uint_acc];
    match goal with
    | |- context [Ascii.eqb ?c "_"] => change (Ascii.eqb c "_") with false
    end;
    match goal with
    | |- context [is_digit ?c] => change (is_digit c) with true
    end;
    cbv iota; rewrite <- IH; f_equal;
    match goal with
    | |- context [digit_val ?c] =>
        let v := eval vm_compute in (digit_val c) in
        change (digit_val c) with v
    end; lia.
Qed.

Lemma int_digits_zero (d : Decimal.uint) (after_digit : bool) :
  after_digit = true \/ d <> Decimal.Nil ->
  int_digits 0 after_digit (uint_chars d) = Some (Z.of_N (Pos.of_uint d)).
Proof.
  revert after_digit. unfold uint_chars.
  induction d as [|d IH|d IH|d IH|d IH|d IH|d IH|d IH|d IH|d IH|d IH];
    intros b Hb.
  { destruct Hb as [->|?]; done. }
  { cbn [NilEmpty.string_of_uint list_ascii_of_string int_digits Pos.of_uint].
    change (Ascii.eqb "0" "_") with false. change (is_digit "0") with true.
    cbv iota. apply IH. by left. }
  all: cbn [NilEmpty.string_of_uint list_ascii_of_string int_digits
            Pos.of_uint];
    match goal with
    | |- context [Ascii.eqb ?c "_"] => change (Ascii.eqb c "_") with false
    end;
    match goal with
    | |- context [is_digit ?c] => change (is_digit c) with true
    end;
    cbv iota; apply (int_digits_acc d).
Qed.

Lemma uint_chars_digits (d : Decimal.uint) :
  Forall (fun c => is_digit c = true) (uint_chars d).
Proof.
  unfold uint_chars. induction d; cbn; constructor; done.
Qed.

Lemma is_digit_plain (c : ascii) :
  is_digit c = true ->
  is_space c = false /\ Ascii.eqb c "-" = false /\ Ascii.eqb c "+" = false.
Proof.
  intros Hc. split_and!.
  - revert Hc. unfold is_digit, is_space, in_range.
    change (code "0") with 48. change (code "9") with 57.
    change (code "009") with 9. change (code "013") with 13.
    change (code "028") with 28. change (code "031") with 31. lia.
  - destruct (Ascii.eqb_spec c "-") as [->|]; [by vm_compute in Hc|done].
  - destruct (Ascii.eqb_spec c "+") as [->|]; [by vm_compute in Hc|done].
Qed.

Lemma lstrip_head (c : ascii) (l : list ascii) :
  is_space c = false -> lstrip (c :: l) = c :: l.
Proof. intros H. cbn. by rewrite H. Qed.

(** Text without white space at either end is left alone by [strip]. *)
Lemma strip_plain (c : ascii) (l : list ascii) :
  is_space c = false -> Forall (fun c => is_space c = false) l ->
  strip (c :: l) = c :: l.
Proof.
  intros Hc Hl. unfold strip. rewrite lstrip_head by done.
  assert (Hrev : lstrip (rev (c :: l)) = rev (c :: l)).
  { assert (Hall : Forall (fun c => is_space c = false) (rev (c :: l))).
    { apply Forall_rev. by constructor. }
    destruct (rev (c :: l)) as [|x xs]; [done|].
    apply lstrip_head. by apply Forall_cons in Hall as [? _]. }
  rewrite Hrev. apply rev_involutive.
Qed.

Lemma filter_is_digit_all (l : list ascii) :
  Forall (fun c => is_digit c = true) l -> List.filter is_digit l = l.
Proof.
  induction 1 as [|c l Hc _ IH]; [done|]. cbn. by rewrite Hc, IH.
Qed.

Lemma length_list_ascii_of_string (s : string) :
  length (list_ascii_of_string s) = String.length s.
Proof. induction s as [|c s IH]; cbn; [done|]. by rewrite IH. Qed.

Lemma nonnil_string_of_uint (d : Decimal.uint) :
  d <> Decimal.Nil ->
  list_ascii_of_string (NilZero.string_of_uint d) = uint_chars d.
Proof. intros Hd. unfold uint_chars. by destruct d. Qed.

Lemma int_literal_uint (d : Decimal.uint) :
  d <> Decimal.Nil ->
  Z.of_nat (length (uint_chars d)) <= int_max_str_digits ->
  exists c rest,
    uint_chars d = c :: rest
    /\ Ascii.eqb c "-" = false /\ Ascii.eqb c "+" = false
    /\ Forall (fun c => is_space c = false) (c :: rest)
    /\ int_literal (c :: rest) = Some (Z.of_N (Pos.of_uint d)).
Proof.
  intros Hd Hlen. pose proof (uint_chars_digits d) as Hall.
  pose proof (int_digits_zero d false (or_intror Hd)) as Hval.
  destruct (uint_chars d) as [|c rest] eqn:Hchars.
  { destruct d; done. }
  assert (Hplain : Forall (fun c => is_space c = false) (c :: rest)).
  { eapply Forall_impl; [exact Hall|]. intros x Hx. by apply is_digit_plain. }
  assert (Hlit : int_literal (c :: rest) = Some (Z.of_N (Pos.of_uint d))).
  { unfold int_literal, within_digit_limit.
    rewrite Hval, (filter_is_digit_all _ Hall).
    by replace (Z.of_nat (length (c :: rest)) <=? int_max_str_digits)
      with true by lia. }
  apply Forall_cons in Hall as [Hc _].
  apply is_digit_plain in Hc as (_ & Hminus & Hplus).
  by exists c, rest.
Qed.

(** X14.  An integer whose decimal form has at most 4300 digits, the limit
    within which [str] renders an integer and [int] reads one, is written by
    [str] as a text that [int] reads back as the same integer.  So an
    identifier given as the text of an integer, with white space, a plus sign
    or underscores, is sent in its plain decimal form, which denotes the
    same integer. *)
Theorem identifiers_read_back (z : Z) :
  Z.of_nat (String.length (str_of_int (Z.abs z))) <= int_max_str_digits ->
  int_of_str (str_of_int z) = Some z
  /\ int_py (PyStr (str_of_int z)) = Ret z.
Proof.
  intros Hlen.
  assert (Hz : int_of_str (str_of_int z) = Some z);
    [|split; [done|cbn [int_py]; by rewrite Hz]].
  destruct z as [|p|p]; [done|..];
    pose proof (DecimalPos.Unsigned.to_uint_nonnil p) as Hnil;
    assert (Hlen' : Z.of_nat (length (uint_chars (Pos.to_uint p)))
                    <= int_max_str_digits)
      by (rewrite <- (nonnil_string_of_uint _ Hnil),
            length_list_ascii_of_string; exact Hlen);
    destruct (int_literal_uint (Pos.to_uint p) Hnil Hlen')
      as (c & rest & Hchars & Hminus & Hplus & Hplain & Hval);
    unfold str_of_int, int_of_str;
    cbn [Z.to_int NilZero.string_of_int].
  - rewrite (nonnil_string_of_uint _ Hnil), Hchars.
    apply Forall_cons in Hplain as [Hc Hrest].
    rewrite strip_plain by done. rewrite Hminus, Hplus, Hval.
    by rewrite DecimalPos.Unsigned.of_to.
  - cbn [list_ascii_of_string].
    rewrite (nonnil_string_of_uint _ Hnil), Hchars.
    rewrite strip_plain by done.
    change (Ascii.eqb "-" "-") with true. cbv iota. rewrite Hval.
    by rewrite DecimalPos.Unsigned.of_to.
Qed.

(** The text of 1200 with a sign, an underscore and blanks is sent as 1200. *)
Lemma identifiers_read_back_witness :
  int_py (PyStr " +1_200 ") = Ret 1200
  /\ str_of_int 1200 = "1200"
  /\ int_py (PyStr (str_of_int 1200)) = Ret 1200.
Proof.
  split; [reflexivity|]. split; [reflexivity|].
  apply (identifiers_read_back 1200). vm_compute. discriminate.
Defined.

(** ** The envelope and the bookings *)

(** The text of the envelope before and after the payload. *)
Definition envelope_head (self : DimsInventoryClient) : string :=
  "<?xml version=" +:+ q "1.0" +:+ " encoding=" +:+ q "utf-8" +:+ "?>
<soap:Envelope xmlns:xsi="
  +:+ q "http://www.w3.org/2001/XMLSchema-instance" +:+ "
               xmlns:xsd=" +:+ q "http://www.w3.org/2001/XMLSchema" +:+ "
               xmlns:soap="
  +:+ q "http://schemas.xmlsoap.org/soap/envelope/" +:+ ">
    <soap:Header>
        <Authentication xmlns="
  +:+ q "https://dims.ignitetravel.com/IMSXML" +:+ ">
            <UserName>" +:+ fmt_opt (username self) +:+ "</UserName>
            <PassWord>" +:+ fmt_opt (password self) +:+ "</PassWord>
            <Token>" +:+ fmt_opt (token self) +:+ "</Token>
        </Authentication>
    </soap:Header>
    <soap:Body>
        ".

Definition envelope_tail : string :=
  "
    </soap:Body>
</soap:Envelope>".

Lemma list_ascii_of_string_app (a b : string) :
  list_ascii_of_string (a +:+ b)
  = list_ascii_of_string a ++ list_ascii_of_string b.
Proof.
  induction a as [|c a IH]; [done|].
  change (c :: list_ascii_of_string (a +:+ b)
          = c :: (list_ascii_of_string a ++ list_ascii_of_string b)).
  by f_equal.
Qed.

Lemma list_ascii_of_string_inj (a b : string) :
  list_ascii_of_string a = list_ascii_of_string b -> a = b.
Proof.
  intros H. rewrite <- (string_of_list_ascii_of_string a),
    <- (string_of_list_ascii_of_string b). by rewrite H.
Qed.

Lemma format_soap_envelope_parts (self : DimsInventoryClient)
    (payload : string) :
  format_soap_envelope self payload
  = envelope_head self +:+ payload +:+ envelope_tail.
Proof.
  unfold format_soap_envelope, envelope_head, envelope_tail.
  rewrite !append_assoc. reflexivity.
Qed.

(** X15.  The envelope holds the payload as it is, between a head that
    depends on the credentials only and a fixed tail: nothing of the payload
    is escaped or dropped, and two payloads that differ give two envelopes
    that differ. *)
Theorem envelope_wraps_the_payload (self : DimsInventoryClient) :
  (forall payload,
     format_soap_envelope self payload
     = envelope_head self +:+ payload +:+ envelope_tail)
  /\ (forall payload payload',
        format_soap_envelope self payload = format_soap_envelope self payload'
        -> payload = payload').
Proof.
  split; [apply format_soap_envelope_parts|].
  intros p p'. rewrite !format_soap_envelope_parts.
  intros H. apply (f_equal list_ascii_of_string) in H.
  rewrite !list_ascii_of_string_app in H.
  apply app_inv_head, app_inv_tail in H. by apply list_ascii_of_string_inj.
Qed.

Lemma parse_bookings_values (root : element) (v : option (list pyval)) :
  parse_bookings root = Ret v -> v = None \/ v = Some [].
Proof.
  unfold parse_bookings.
  destruct (text_of (find_below "MessageType" root)) as [mt|e]; cbn; [|done].
  destruct (text_of (find_below "Message" root)) as [m|e]; cbn; [|done].
  case_bool_decide; intros [= <-]; auto.
Qed.

(** X16.  get_bookings never returns a booking: whatever the arguments and
    whatever the service answers, a value it returns is None or the empty
    list. *)
Theorem get_bookings_never_returns_a_booking (w : world)
    (self : DimsInventoryClient) (resort_id : pyval)
    (start_date end_date hdr : string) (st : effects)
    (v : option (list pyval)) :
  fst (get_bookings w self resort_id start_date end_date hdr st) = Ret v ->
  v = None \/ v = Some [].
Proof.
  destruct (get_bookings_shape w self resort_id start_date end_date hdr st)
    as [(e & st' & -> & _)|(payload & st' & -> & _)]; [done|].
  rewrite exchange_cases. cbn [fst].
  destruct (server w _) as [|status [root|]]; [done|..];
    destruct ((400 <=? status) && (status <? 600)); try done.
  apply parse_bookings_values.
Qed.

(** A success answer with two booking entries gives None. *)
Lemma get_bookings_never_returns_a_booking_witness :
  fst (get_bookings (steady_world (Date 2030 1 1) success_doc) sample_client
         (PyInt 12) "2030-01-01" "2030-01-02" GetBookingsListWithRoomRateIds
         fresh) = Ret None
  /\ (@None (list pyval) = None \/ @None (list pyval) = Some []).
Proof.
  split; [reflexivity|].
  exact (get_bookings_never_returns_a_booking
           (steady_world (Date 2030 1 1) success_doc) sample_client (PyInt 12)
           "2030-01-01" "2030-01-02" GetBookingsListWithRoomRateIds fresh
           None eq_refl).
Defined.
